(** * merger_automatic_Nov4_versions.C : the PairGen.root merger

    A shallow embedding of [MergeSingleGenFiles] and [MergeDirectories]
    and of the part of ROOT's object model the macro touches: files and
    directories (ordered key lists), histograms (bin arrays addressed by
    global bin number), numeric parameters, trees, the current-directory
    cursor [gDirectory], and the console.

    Numbers of type [double] are IEEE binary64 values: the kernel's
    primitive floats, so every sum, quotient and square root below is the
    rounded operation the compiled macro performs, each rounded on its
    own.

    What the macro asks of ROOT is modelled after ROOT's conventions:
    - [Get(name)] returns the object of the first key of that name, or
      null;
    - [GetPath()] returns the absolute path of a directory,
      [file:/dir1/dir2], and [GetDirectory(path)] resolves an absolute
      path in the file the path names;
    - [Write()] and [Clone()] act on the current directory [gDirectory],
      which only [cd()], the opening of a file and the creation of the
      output file move;
    - a C cast of the pointer [Get] returns is unchecked: a member call
      through it on an object of another class has no defined
      behaviour, and [GetVal()] through a [TParameter<double>] pointer
      reads the eight bytes at the value member;
    - [mkdir] is taken to succeed, and a [TChain] is represented by the
      element names given to [Add].

    The scan of the working directory uses the throwing overloads of
    [std::filesystem] and the macro has no handler: a [filesystem_error]
    of the iterator or of [is_directory()] leaves the macro.

    [PrintProgressBar] computes in [float]: IEEE binary32, taken from
    the Standard Library's specification of the IEEE operations. *)

From Stdlib Require Import ZArith List String Ascii Bool Lia.
From Stdlib Require Import PrimFloat FloatOps Uint63 SpecFloat DecimalString.
Import ListNotations.

Local Open Scope list_scope.
Local Open Scope string_scope.

(** ** Numbers *)

Definition double : Type := float.

Definition d0 : double := 0%float.

(** [size_t] to [double], as in [sum / binContents.size()]. *)
Definition double_of_size (n : nat) : double :=
  PrimFloat.of_uint63 (Uint63.of_Z (Z.of_nat n)).

(** The [double] whose eight bytes are the 64-bit pattern [b]
    (sign bit 63, exponent bits 62..52, fraction bits 51..0). *)
Definition double_of_bits (b : Z) : double :=
  let w := (b mod 2 ^ 64)%Z in
  let frac := (w mod 2 ^ 52)%Z in
  let ex := ((w / 2 ^ 52) mod 2 ^ 11)%Z in
  let magnitude :=
    if (ex =? 0)%Z then Z.ldexp (PrimFloat.of_uint63 (Uint63.of_Z frac)) (-1074)
    else if (ex =? 2047)%Z then
      (if (frac =? 0)%Z then PrimFloat.infinity else PrimFloat.nan)
    else Z.ldexp (PrimFloat.of_uint63 (Uint63.of_Z (frac + 2 ^ 52))) (ex - 1075) in
  if Z.testbit w 63 then PrimFloat.opp magnitude else magnitude.

(** The value of a binary32 pattern, which every [double] represents
    exactly (sign bit 31, exponent bits 30..23, fraction bits 22..0). *)
Definition double_of_bits32 (b : Z) : double :=
  let w := (b mod 2 ^ 32)%Z in
  let frac := (w mod 2 ^ 23)%Z in
  let ex := ((w / 2 ^ 23) mod 2 ^ 8)%Z in
  let magnitude :=
    if (ex =? 0)%Z then Z.ldexp (PrimFloat.of_uint63 (Uint63.of_Z frac)) (-149)
    else if (ex =? 255)%Z then
      (if (frac =? 0)%Z then PrimFloat.infinity else PrimFloat.nan)
    else Z.ldexp (PrimFloat.of_uint63 (Uint63.of_Z (frac + 2 ^ 23))) (ex - 150) in
  if Z.testbit w 31 then PrimFloat.opp magnitude else magnitude.

(** A signed integer of at most 64 bits converted to [double]. *)
Definition double_of_Z (z : Z) : double :=
  let m := Z.abs z in
  let magnitude :=
    if (m <? 2 ^ 63)%Z then PrimFloat.of_uint63 (Uint63.of_Z m)
    else Z.ldexp PrimFloat.one 63 in
  if (z <? 0)%Z then PrimFloat.opp magnitude else magnitude.

(** ** ROOT objects *)

Record TAxis : Type := mkAxis {
  fNbins : nat;
  fXmin : double;
  fXmax : double
}.

(** A histogram of one, two or three dimensions.  [fArray] holds the bin
    contents by global bin number, guard bins included; [fErrors] holds,
    at the same index, the error of the bin: what [GetBinError] returns,
    which after [SetBinError] is the value given (ROOT keeps its square
    in [fSumw2] and returns the root) and after [Reset] is zero.  Both
    arrays have one entry per cell.  An axis that the dimension does not
    use has one bin, as ROOT builds it.  The contents are stored as
    [double], as [TH1D], [TH2D] and [TH3D] store them; the classes that
    store them narrower are not modelled. *)
Record TH1 : Type := mkTH1 {
  hName : string;
  fDimension : nat;
  fXaxis : TAxis;
  fYaxis : TAxis;
  fZaxis : TAxis;
  fArray : list double;
  fErrors : list double
}.

(** The value member of a [TParameter<T>], by the instantiation that was
    stored.  For the four-byte instantiations [pad] is the content of the
    four bytes that follow the member inside the object. *)
Inductive ParamVal : Type :=
| ValLong64 (v : Z)
| ValInt (v : Z) (pad : Z)
| ValFloat (bits : Z) (pad : Z)
| ValDouble (v : double).

Record TParameter : Type := mkParam {
  pName : string;
  fVal : ParamVal
}.

Definition Row : Type := list Z.

Record TTree : Type := mkTree {
  tName : string;
  tRows : list Row
}.

Local Unset Elimination Schemes.

(** What [key->ReadObj()] can return.  A directory carries its keys in
    the order [GetListOfKeys] enumerates them. *)
Inductive TObject : Type :=
| ObjTH1 (h : TH1)
| ObjTParameter (p : TParameter)
| ObjTTree (t : TTree)
| ObjTDirectory (name : string) (keys : list TObject)
| ObjOther (className name : string) (payload : list Z).

Local Set Elimination Schemes.

Definition GetName (o : TObject) : string :=
  match o with
  | ObjTH1 h => hName h
  | ObjTParameter p => pName p
  | ObjTTree t => tName t
  | ObjTDirectory name _ => name
  | ObjOther _ name _ => name
  end.

Record TFile : Type := mkFile {
  fileName : string;
  fileKeys : list TObject
}.

(** A directory handle: the file it lives in, its path below the top of
    that file, and its keys. *)
Record TDirectory : Type := mkDir {
  dFile : string;
  dPath : list string;
  dKeys : list TObject
}.

Definition top_of (f : TFile) : TDirectory :=
  {| dFile := fileName f; dPath := []; dKeys := fileKeys f |}.

(** ** Histogram bins *)

Definition GetNbinsX (h : TH1) : nat := fNbins (fXaxis h).
Definition GetNbinsY (h : TH1) : nat := fNbins (fYaxis h).
Definition GetNbinsZ (h : TH1) : nat := fNbins (fZaxis h).

(** [TH1::GetBin]: the global bin of a coordinate.  Each coordinate is
    clamped to the overflow bin of its axis; a histogram of dimension one
    ignores [biny] and [binz], one of dimension two ignores [binz]. *)
Definition GetBin (h : TH1) (binx biny binz : nat) : nat :=
  let nx := GetNbinsX h + 2 in
  let ny := GetNbinsY h + 2 in
  let cx := Nat.min binx (GetNbinsX h + 1) in
  let cy := Nat.min biny (GetNbinsY h + 1) in
  let cz := Nat.min binz (GetNbinsZ h + 1) in
  match fDimension h with
  | 0 | 1 => cx
  | 2 => cx + nx * cy
  | _ => cx + nx * (cy + ny * cz)
  end.

Definition GetBinContent (h : TH1) (binx biny binz : nat) : double :=
  nth (GetBin h binx biny binz) (fArray h) d0.

Definition GetBinError (h : TH1) (binx biny binz : nat) : double :=
  nth (GetBin h binx biny binz) (fErrors h) d0.

(** Array store; an index outside the array changes nothing.  The bin
    loops only visit coordinates of the grid, for which the setters of
    the one-, two- and three-dimensional classes all store at
    [GetBin]. *)
Fixpoint set_nth {A : Type} (n : nat) (v : A) (l : list A) : list A :=
  match l, n with
  | [], _ => []
  | _ :: t, O => v :: t
  | x :: t, S m => x :: set_nth m v t
  end.

Definition SetBinContent (h : TH1) (binx biny binz : nat) (c : double) : TH1 :=
  {| hName := hName h; fDimension := fDimension h;
     fXaxis := fXaxis h; fYaxis := fYaxis h; fZaxis := fZaxis h;
     fArray := set_nth (GetBin h binx biny binz) c (fArray h);
     fErrors := fErrors h |}.

Definition SetBinError (h : TH1) (binx biny binz : nat) (e : double) : TH1 :=
  {| hName := hName h; fDimension := fDimension h;
     fXaxis := fXaxis h; fYaxis := fYaxis h; fZaxis := fZaxis h;
     fArray := fArray h;
     fErrors := set_nth (GetBin h binx biny binz) e (fErrors h) |}.

(** [obj->Clone()] followed by [Reset()]: same name and binning, every
    content and every error zero. *)
Definition Reset (h : TH1) : TH1 :=
  {| hName := hName h; fDimension := fDimension h;
     fXaxis := fXaxis h; fYaxis := fYaxis h; fZaxis := fZaxis h;
     fArray := map (fun _ => d0) (fArray h);
     fErrors := map (fun _ => d0) (fErrors h) |}.

(** ** Parameters read through a [TParameter<double>*] *)

(** [((TParameter<double>* )obj)->GetVal()].  The accessor is not virtual
    and the cast is unchecked, so the call returns the eight bytes at the
    value member read as a [double], whatever instantiation the object
    has: the two's-complement pattern of a [Long64_t]; for [int] and
    [float] the four bytes of the value (low half on a little-endian
    machine) followed by four bytes of padding. *)
Definition GetVal_as_double (p : TParameter) : double :=
  match fVal p with
  | ValDouble v => v
  | ValLong64 v => double_of_bits v
  | ValInt v pad => double_of_bits ((v mod 2 ^ 32) + 2 ^ 32 * (pad mod 2 ^ 32))
  | ValFloat bits pad => double_of_bits ((bits mod 2 ^ 32) + 2 ^ 32 * (pad mod 2 ^ 32))
  end.

(** The numeric value the parameter holds, converted to [double] the way
    an arithmetic conversion would. *)
Definition numeric_value (p : TParameter) : double :=
  match fVal p with
  | ValDouble v => v
  | ValLong64 v => double_of_Z v
  | ValInt v _ => double_of_Z v
  | ValFloat bits _ => double_of_bits32 bits
  end.

(** ** Names and paths *)

(** [TDirectory::Get(name)] for a plain name: the first key so named. *)
Fixpoint Get (keys : list TObject) (name : string) : option TObject :=
  match keys with
  | [] => None
  | o :: rest => if String.eqb (GetName o) name then Some o else Get rest name
  end.

(** The text before the first occurrence of [c] and the text after it. *)
Fixpoint split_at (c : ascii) (s : string) : option (string * string) :=
  match s with
  | EmptyString => None
  | String a rest =>
      if Ascii.eqb a c then Some (EmptyString, rest)
      else match split_at c rest with
           | Some (l, r) => Some (String a l, r)
           | None => None
           end
  end.

(** The components of a path between its slashes. *)
Fixpoint components (s : string) : list string :=
  match s with
  | EmptyString => [EmptyString]
  | String a rest =>
      match components rest with
      | [] => [String a EmptyString]
      | hd :: tl => if Ascii.eqb a "/"%char then EmptyString :: hd :: tl
                    else String a hd :: tl
      end
  end.

Definition join_path (dirs : list string) : string :=
  fold_right (fun d acc => "/" ++ d ++ acc) "" dirs.

(** [TDirectory::GetPath]: the name of the file, a colon, and the
    directories from the top of the file, as in [file.root:/dir1/dir2];
    the top of the file itself is [file.root:/]. *)
Definition GetPath (d : TDirectory) : string :=
  match dPath d with
  | [] => dFile d ++ ":/"
  | _ => dFile d ++ ":" ++ join_path (dPath d)
  end.

(** The file of that name in the list of open files. *)
Definition FindFile (files : list TFile) (name : string) : option TFile :=
  find (fun f => String.eqb (fileName f) name) files.

(** Descent along the components of a path.  A step that starts at a
    slash restarts from the top of the file; a name must be the first
    key of that name and a directory. *)
Fixpoint descend (top cur : TDirectory) (comps : list string) : option TDirectory :=
  match comps with
  | [] => Some cur
  | c :: rest =>
      if String.eqb c "" then
        match rest with
        | [] => Some cur
        | _ => descend top top rest
        end
      else
        match Get (dKeys cur) c with
        | Some (ObjTDirectory name keys) =>
            descend top {| dFile := dFile cur; dPath := (dPath cur ++ [name])%list;
                           dKeys := keys |} rest
        | _ => None
        end
  end.

(** [self->GetDirectory(apath)].  An empty path is the directory itself.
    A path with a colon is absolute: the text before the colon names a
    file, looked up among the open files, and the rest is followed from
    the top of that file, whichever directory received the call.  A path
    without a colon is followed from the receiver. *)
Definition GetDirectory (openFiles : list TFile) (self : TFile) (apath : string)
  : option TDirectory :=
  if String.eqb apath "" then Some (top_of self)
  else
    match split_at ":"%char apath with
    | Some (fname, rest) =>
        match FindFile openFiles fname with
        | Some f =>
            if String.eqb rest "" then Some (top_of f)
            else descend (top_of f) (top_of f) (components rest)
        | None => None
        end
    | None => descend (top_of self) (top_of self) (components apath)
    end.

(** ** Effects: the cursor, the console and the output file *)

(** What [Write()] can put into the output file. *)
Inductive Written : Type :=
| WrTH1 (h : TH1)
| WrTParameterDouble (name : string) (val : double)
| WrTree (name : string) (elements : list string)
| WrObject (o : TObject).

(** [gDirectory]: the directory that [Write()] and [Clone()] target. *)
Inductive Cursor : Type :=
| AtROOT
| AtInput (file : string)
| AtOutput (path : list string).

(** What a run does, in the order it does it.  [Cout] and [Cerr] are
    lines on the two streams; [ProgressBar current total] is the call
    [PrintProgressBar(current, total)]; [Mkdir] and [WriteObj] act on the
    directory of the output file at [path]; [WriteElsewhere] is a
    [Write()] issued while the cursor is outside the output file;
    [CloseFile] is [Close()] on the file of that name. *)
Inductive Event : Type :=
| Cout (msg : string)
| Cerr (msg : string)
| ProgressBar (current total : nat)
| Mkdir (path : list string) (name : string)
| WriteObj (path : list string) (obj : Written)
| WriteElsewhere (obj : Written)
| CloseFile (name : string).

(** A computation reads and moves the cursor, emits events, and either
    returns or has no defined behaviour ([None]): the latter stands for a
    member call through a pointer cast to a class the object does not
    have. *)
Definition M (A : Type) : Type := Cursor -> option (A * Cursor * list Event).

Definition ret {A : Type} (a : A) : M A := fun g => Some (a, g, []).

Definition bind {A B : Type} (c : M A) (k : A -> M B) : M B :=
  fun g =>
    match c g with
    | None => None
    | Some (a, g1, ev1) =>
        match k a g1 with
        | None => None
        | Some (b, g2, ev2) => Some (b, g2, (ev1 ++ ev2)%list)
        end
    end.

Notation "x <- c ;; k" := (bind c (fun x => k))
  (at level 61, c at next level, right associativity).
Notation "c ;; k" := (bind c (fun _ => k))
  (at level 61, right associativity).

Definition emit (e : Event) : M unit := fun g => Some (tt, g, [e]).
Definition cd (c : Cursor) : M unit := fun _ => Some (tt, c, []).
Definition undefined {A : Type} : M A := fun _ => None.

Definition TObject_Write (obj : Written) : M unit :=
  fun g =>
    match g with
    | AtOutput path => Some (tt, g, [WriteObj path obj])
    | _ => Some (tt, g, [WriteElsewhere obj])
    end.

(** A loop over a container that carries a value from one iteration to
    the next. *)
Definition foldM {A S : Type} (body : S -> A -> M S) : list A -> S -> M S :=
  fix go (l : list A) (s : S) : M S :=
    match l with
    | [] => ret s
    | a :: rest => s' <- body s a ;; go rest s'
    end.

Definition forM_ {A : Type} (body : A -> M unit) (l : list A) : M unit :=
  foldM (fun _ a => body a) l tt.

(** The events of a computation started at cursor [g]. *)
Definition events_of {A : Type} (c : M A) (g : Cursor) : option (list Event) :=
  match c g with
  | Some (_, _, ev) => Some ev
  | None => None
  end.

(** ** Casts of what [Get] returns *)

(** [(TH1* )dir->Get(name)] followed by [h->GetBinContent(...)]: null
    when no key has the name; a histogram when the key holds one. *)
Definition cast_TH1 (o : option TObject) : M (option TH1) :=
  match o with
  | None => ret None
  | Some (ObjTH1 h) => ret (Some h)
  | Some _ => undefined
  end.

(** [(TParameter<double>* )dir->Get(name)] followed by [GetVal()]: any
    of the parameter instantiations is read in place. *)
Definition cast_TParameter (o : option TObject) : M (option TParameter) :=
  match o with
  | None => ret None
  | Some (ObjTParameter p) => ret (Some p)
  | Some _ => undefined
  end.

(** ** The histogram strategy *)

(** Mean and standard deviation of the collected contents, as computed
    with [std::accumulate] and [std::inner_product] from [0.0]. *)
Definition bin_mean (binContents : list double) : double :=
  let sum := fold_left PrimFloat.add binContents d0 in
  PrimFloat.div sum (double_of_size (List.length binContents)).

Definition bin_stddev (binContents : list double) : double :=
  let mean := bin_mean binContents in
  let sq_sum :=
    fold_left (fun acc x => PrimFloat.add acc (PrimFloat.mul x x)) binContents d0 in
  PrimFloat.sqrt
    (PrimFloat.sub (PrimFloat.div sq_sum (double_of_size (List.length binContents)))
                   (PrimFloat.mul mean mean)).

(** The body of the innermost bin loop once the contents are collected. *)
Definition set_bin (histClone : TH1) (i j k : nat) (binContents : list double) : TH1 :=
  match binContents with
  | [] => histClone
  | _ => SetBinError (SetBinContent histClone i j k (bin_mean binContents))
                     i j k (bin_stddev binContents)
  end.

(** The three bin loops, guard bins included.  Both functions of the
    macro run these loops; they differ in [collect], the loop over the
    input files. *)
Definition merge_bin (collect : nat -> nat -> nat -> M (list double))
    (i j : nat) (histClone : TH1) (k : nat) : M TH1 :=
  binContents <- collect i j k ;;
  ret (set_bin histClone i j k binContents).

Definition merge_bins (collect : nat -> nat -> nat -> M (list double))
    (histClone : TH1) : M TH1 :=
  let nBinsX := GetNbinsX histClone + 2 in
  let nBinsY := GetNbinsY histClone + 2 in
  let nBinsZ := GetNbinsZ histClone + 2 in
  foldM (fun hx i =>
    foldM (fun hy j =>
      foldM (merge_bin collect i j) (seq 0 nBinsZ) hy)
    (seq 0 nBinsY) hx)
  (seq 0 nBinsX) histClone.

(** Lines 109-118: the contents of one bin in the top-level histograms,
    one input file at a time. *)
Definition collect_root_step (name : string) (i j k : nat)
    (binContents : list double) (file : TFile) : M (list double) :=
  h <- cast_TH1 (Get (fileKeys file) name) ;;
  match h with
  | Some h => ret (binContents ++ [GetBinContent h i j k])%list
  | None =>
      emit (Cerr ("Histogram " ++ name ++ " not found in file " ++ fileName file)) ;;
      ret binContents
  end.

Definition collect_root (inputFiles : list TFile) (name : string)
    (i j k : nat) : M (list double) :=
  foldM (collect_root_step name i j k) inputFiles [].

(** Lines 245-254: the same inside [MergeDirectories].  [openFiles] is
    the list of open files in which an absolute path is resolved. *)
Definition collect_nested_step (sourceDir : TDirectory) (openFiles : list TFile)
    (name : string) (i j k : nat)
    (binContents : list double) (file : TFile) : M (list double) :=
  match GetDirectory openFiles file (GetPath sourceDir) with
  | Some dir =>
      h <- cast_TH1 (Get (dKeys dir) name) ;;
      match h with
      | Some h => ret (binContents ++ [GetBinContent h i j k])%list
      | None => ret binContents
      end
  | None => ret binContents
  end.

Definition collect_nested (sourceDir : TDirectory) (inputFiles : list TFile)
    (name : string) (i j k : nat) : M (list double) :=
  foldM (collect_nested_step sourceDir inputFiles name i j k) inputFiles [].

(** ** The parameter and tree strategies *)

(** Lines 150-160: the sum over the input files at the top level, one
    input file at a time. *)
Definition sum_root_step (objName : string) (totalValue : double) (file : TFile)
  : M double :=
  param <- cast_TParameter (Get (fileKeys file) objName) ;;
  match param with
  | Some p => ret (PrimFloat.add totalValue (GetVal_as_double p))
  | None =>
      emit (Cerr ("Parameter " ++ objName ++ " not found in file " ++ fileName file)) ;;
      ret totalValue
  end.

Definition sum_root (inputFiles : list TFile) (objName : string) : M double :=
  foldM (sum_root_step objName) inputFiles d0.

(** Lines 277-290: the same inside [MergeDirectories]. *)
Definition sum_nested_step (sourceDir : TDirectory) (openFiles : list TFile)
    (objName : string) (totalValue : double) (file : TFile) : M double :=
  match GetDirectory openFiles file (GetPath sourceDir) with
  | Some dir =>
      param <- cast_TParameter (Get (dKeys dir) objName) ;;
      match param with
      | Some p => ret (PrimFloat.add totalValue (GetVal_as_double p))
      | None =>
          emit (Cerr ("Parameter " ++ objName ++ " not found in file " ++ fileName file)) ;;
          ret totalValue
      end
  | None => ret totalValue
  end.

Definition sum_nested (sourceDir : TDirectory) (inputFiles : list TFile)
    (objName : string) : M double :=
  foldM (sum_nested_step sourceDir inputFiles objName) inputFiles d0.

(** Lines 172-181: the elements added to the chain at the top level.
    The pointer that [Get] returns is only tested against null. *)
Definition chain_root_step (objName : string) (chain : list string) (file : TFile)
  : M (list string) :=
  match Get (fileKeys file) objName with
  | Some _ => ret (chain ++ [(fileName file ++ "/" ++ objName)%string])%list
  | None =>
      emit (Cerr ("Tree " ++ objName ++ " not found in file " ++ fileName file)) ;;
      ret chain
  end.

Definition chain_root (inputFiles : list TFile) (objName : string) : M (list string) :=
  foldM (chain_root_step objName) inputFiles [].

(** Lines 299-308: the same inside [MergeDirectories]. *)
Definition chain_nested_step (sourceDir : TDirectory) (openFiles : list TFile)
    (objName : string) (chain : list string) (file : TFile) : M (list string) :=
  match GetDirectory openFiles file (GetPath sourceDir) with
  | Some dir =>
      match Get (dKeys dir) objName with
      | Some _ =>
          ret (chain ++ [(fileName file ++ "/" ++ GetPath dir ++ "/" ++ objName)%string])%list
      | None => ret chain
      end
  | None => ret chain
  end.

Definition chain_nested (sourceDir : TDirectory) (inputFiles : list TFile)
    (objName : string) : M (list string) :=
  foldM (chain_nested_step sourceDir inputFiles objName) inputFiles [].

(** ** [MergeDirectories] *)

(** The body of the [while] loop of [MergeDirectories] for one key.
    [outputDir] is the path of the output directory; [mkdir] is taken to
    succeed.  The recursive call of the function (line 318) is its first
    statement, [outputDir->cd()], followed by its loop. *)
Fixpoint merge_nested (obj : TObject) (sourceDir : TDirectory)
    (inputFiles : list TFile) (outputDir : list string) {struct obj} : M unit :=
  let objName := GetName obj in
  match obj with
  | ObjTH1 h =>
      let histClone := Reset h in
      merged <- merge_bins (collect_nested sourceDir inputFiles (hName histClone))
                           histClone ;;
      TObject_Write (WrTH1 merged)
  | ObjTParameter _ =>
      totalValue <- sum_nested sourceDir inputFiles objName ;;
      cd (AtOutput outputDir) ;;
      TObject_Write (WrTParameterDouble objName totalValue)
  | ObjTTree _ =>
      chain <- chain_nested sourceDir inputFiles objName ;;
      cd (AtOutput outputDir) ;;
      TObject_Write (WrTree objName chain)
  | ObjTDirectory name subkeys =>
      let subDir := {| dFile := dFile sourceDir;
                       dPath := (dPath sourceDir ++ [name])%list;
                       dKeys := subkeys |} in
      let newSubDir := (outputDir ++ [name])%list in
      emit (Mkdir outputDir name) ;;
      cd (AtOutput newSubDir) ;;
      forM_ (fun key => merge_nested key subDir inputFiles newSubDir) subkeys
  | ObjOther _ _ _ =>
      cd (AtOutput outputDir) ;;
      TObject_Write (WrObject obj)
  end.

Definition MergeDirectories (sourceDir : TDirectory) (inputFiles : list TFile)
    (outputDir : list string) : M unit :=
  cd (AtOutput outputDir) ;;
  forM_ (fun key => merge_nested key sourceDir inputFiles outputDir) (dKeys sourceDir).

(** ** [MergeSingleGenFiles] *)

Definition outputFileName : string := "PairGenMerged.root".

Definition newline : string := String (ascii_of_nat 10) EmptyString.

(** One entry of the working directory for which [is_directory()]
    answers: its path, the answer, and what [TFile::Open] finds at
    [path/PairGen.root] (the top-level keys of a file that opens and is
    not a zombie). *)
Record directory_entry : Type := mkEntry {
  entry_path : string;
  is_directory : bool;
  pairGen : option (list TObject)
}.

(** One round of the range-for over [fs::directory_iterator(".")].  The
    macro uses the throwing overloads and has no handler: the iterator
    yields an entry and [entry.is_directory()] answers; or the iterator
    yields an entry and [entry.is_directory()] throws
    [filesystem_error]; or the iterator itself throws it, when it is
    constructed or when it is advanced. *)
Inductive iteration : Type :=
| Yields (entry : directory_entry)
| StatusThrows (path : string)
| IteratorThrows.

(** How a statement that can throw is left: by its end, or by the
    exception. *)
Inductive Exit (A : Type) : Type :=
| Returned (a : A)
| Threw.

Arguments Returned {A} a.
Arguments Threw {A}.

(** A loop over a container that an exception leaves at once. *)
Definition foldE {A S : Type} (body : S -> A -> M (Exit S))
  : list A -> S -> M (Exit S) :=
  fix go (l : list A) (s : S) : M (Exit S) :=
    match l with
    | [] => ret (Returned s)
    | a :: rest =>
        r <- body s a ;;
        match r with
        | Returned s' => go rest s'
        | Threw => ret Threw
        end
    end.

(** Lines 42-53: the scan, one round at a time.  A file that opens
    becomes the current directory.  An exception leaves the loop, and
    the files opened so far stay open. *)
Definition scan_step (inputFiles : list TFile) (round : iteration)
  : M (Exit (list TFile)) :=
  match round with
  | Yields entry =>
      if is_directory entry then
        let fileName := entry_path entry ++ "/PairGen.root" in
        match pairGen entry with
        | Some keys =>
            cd (AtInput fileName) ;;
            emit (Cout ("File " ++ fileName ++ " is found and opened successfully.")) ;;
            ret (Returned (inputFiles ++ [{| fileName := fileName; fileKeys := keys |}])%list)
        | None =>
            emit (Cerr ("File " ++ fileName ++ " not found or is corrupted!")) ;;
            ret (Returned inputFiles)
        end
      else ret (Returned inputFiles)
  | StatusThrows _ => ret Threw
  | IteratorThrows => ret Threw
  end.

Definition scan (listing : list iteration) : M (Exit (list TFile)) :=
  foldE scan_step listing [].

(** Lines 84-206: the body of the top-level loop for one key. *)
Definition merge_top_level (firstDir : TFile) (inputFiles : list TFile)
    (obj : TObject) : M unit :=
  let objName := GetName obj in
  match obj with
  | ObjTH1 h =>
      cd (AtOutput []) ;;
      let histClone := Reset h in
      merged <- merge_bins (collect_root inputFiles (hName histClone)) histClone ;;
      TObject_Write (WrTH1 merged)
  | ObjTParameter _ =>
      totalValue <- sum_root inputFiles objName ;;
      cd (AtOutput []) ;;
      TObject_Write (WrTParameterDouble objName totalValue)
  | ObjTTree _ =>
      chain <- chain_root inputFiles objName ;;
      cd (AtOutput []) ;;
      TObject_Write (WrTree objName chain)
  | ObjTDirectory name subkeys =>
      emit (Cerr ("Processing subdirectory: " ++ objName)) ;;
      let subDir := {| dFile := fileName firstDir; dPath := [name]; dKeys := subkeys |} in
      cd (AtOutput []) ;;
      emit (Mkdir [] name) ;;
      MergeDirectories subDir inputFiles [name]
  | ObjOther _ _ _ =>
      cd (AtOutput []) ;;
      TObject_Write (WrObject obj)
  end.

Definition close_all (inputFiles : list TFile) : M unit :=
  forM_ (fun file => emit (CloseFile (fileName file))) inputFiles.

(** Lines 19-31: the progress bar goes to the standard output; a run
    records the call, and [PrintProgressBar_text] gives the characters
    it draws. *)
Definition PrintProgressBar (current total : nat) : M unit :=
  emit (ProgressBar current total).

(** Lines 75-207: the walk over the keys of the first file. *)
Definition merge_loop_step (firstDir : TFile) (inputFiles : list TFile)
    (totalObjs : nat) (objCount : nat) (obj : TObject) : M nat :=
  merge_top_level firstDir inputFiles obj ;;
  PrintProgressBar (objCount + 1) totalObjs ;;
  ret (objCount + 1).

Definition merge_loop (firstDir : TFile) (inputFiles : list TFile) : M nat :=
  let totalObjs := List.length (fileKeys firstDir) in
  foldM (merge_loop_step firstDir inputFiles totalObjs) (fileKeys firstDir) 0.

(** The whole macro.  [listing] is what the iteration over the working
    directory meets, [creatable] tells whether the output file can be
    created.  [nFiles < 1] is the case of the empty vector.  An exception
    of the scan is caught nowhere: it leaves the macro. *)
Definition MergeSingleGenFiles (listing : list iteration) (creatable : bool)
  : M (Exit unit) :=
  scanned <- scan listing ;;
  match scanned with
  | Threw => ret Threw
  | Returned inputFiles =>
      match inputFiles with
      | [] =>
          emit (Cerr "No files found for merging.") ;;
          ret (Returned tt)
      | firstDir :: _ =>
          if negb creatable then
            emit (Cerr ("Failed to create the output file " ++ outputFileName)) ;;
            close_all inputFiles ;;
            ret (Returned tt)
          else
            cd (AtOutput []) ;;
            emit (Cout ("Merging files into " ++ outputFileName ++ "...")) ;;
            cd (AtInput (fileName firstDir)) ;;
            merge_loop firstDir inputFiles ;;
            emit (Cout newline) ;;
            close_all inputFiles ;;
            emit (CloseFile outputFileName) ;;
            emit (Cout "Merging completed successfully.") ;;
            ret (Returned tt)
      end
  end.

(** The macro called in a fresh session: how it is left and what it has
    done by then, or [None] when its behaviour is not defined. *)
Definition run_listing (listing : list iteration) (creatable : bool)
  : option (Exit unit * list Event) :=
  match MergeSingleGenFiles listing creatable AtROOT with
  | Some (how, _, ev) => Some (how, ev)
  | None => None
  end.

(** A run of the macro from a fresh session in a working directory whose
    iteration raises no error: what the run has done when it returns. *)
Definition run (entries : list directory_entry) (creatable : bool)
  : option (list Event) :=
  match run_listing (map Yields entries) creatable with
  | Some (Returned _, ev) => Some ev
  | _ => None
  end.

(** ** Reading a chain back *)

Fixpoint strip_prefix (p s : string) : option string :=
  match p, s with
  | EmptyString, _ => Some s
  | String a p', String b s' => if Ascii.eqb a b then strip_prefix p' s' else None
  | String _ _, EmptyString => None
  end.

(** The object at a path of key names below a list of keys. *)
Fixpoint object_at (keys : list TObject) (comps : list string) : option TObject :=
  match comps with
  | [] => None
  | name :: rest =>
      match rest with
      | [] => Get keys name
      | _ => match Get keys name with
             | Some (ObjTDirectory _ subkeys) => object_at subkeys rest
             | _ => None
             end
      end
  end.

(** The tree a chain element names: an element is the name of a file, a
    slash, and the path of a tree inside that file
    ([file.root/dir/tree]). *)
Fixpoint chain_element_tree (disk : list TFile) (element : string) : option TTree :=
  match disk with
  | [] => None
  | f :: rest =>
      match strip_prefix (fileName f ++ "/") element with
      | Some p =>
          match object_at (fileKeys f) (components p) with
          | Some (ObjTTree t) => Some t
          | _ => chain_element_tree rest element
          end
      | None => chain_element_tree rest element
      end
  end.

(** The rows [CloneTree(-1)] copies: those of the trees the elements
    name, in the order the elements were added. *)
Definition TChain_rows (disk : list TFile) (elements : list string) : list Row :=
  flat_map (fun e => match chain_element_tree disk e with
                     | Some t => tRows t
                     | None => []
                     end) elements.

(** ** Reading a trace *)

(** The objects written into the output file, with their directories. *)
Definition written_at (trace : list Event) : list (list string * Written) :=
  flat_map (fun e => match e with
                     | WriteObj path obj => [(path, obj)]
                     | _ => []
                     end) trace.

Definition Written_name (w : Written) : string :=
  match w with
  | WrTH1 h => hName h
  | WrTParameterDouble name _ => name
  | WrTree name _ => name
  | WrObject o => GetName o
  end.

(** The paths a run creates in the output file, in creation order. *)
Definition output_paths (trace : list Event) : list (list string) :=
  flat_map (fun e => match e with
                     | Mkdir path name => [(path ++ [name])%list]
                     | WriteObj path obj => [(path ++ [Written_name obj])%list]
                     | _ => []
                     end) trace.

(** The paths of a reference directory, in the order its keys are
    enumerated, each directory before its content. *)
Fixpoint reference_paths (prefix : list string) (o : TObject) : list (list string) :=
  match o with
  | ObjTDirectory name keys =>
      (prefix ++ [name])%list
        :: flat_map (reference_paths (prefix ++ [name])%list) keys
  | _ => [(prefix ++ [GetName o])%list]
  end.

Definition tree_paths (keys : list TObject) : list (list string) :=
  flat_map (reference_paths []) keys.

Definition is_stderr (e : Event) : bool :=
  match e with Cerr _ => true | _ => false end.

Definition touches_output (e : Event) : bool :=
  match e with
  | Mkdir _ _ | WriteObj _ _ => true
  | _ => false
  end.

(** The five kinds the if-chain of both loops distinguishes, in the
    order it tests them. *)
Inductive Kind : Type :=
| SampledDistribution
| ScalarAggregate
| TabularSequence
| SubContainer
| Opaque.

Definition classify (o : TObject) : Kind :=
  match o with
  | ObjTH1 _ => SampledDistribution
  | ObjTParameter _ => ScalarAggregate
  | ObjTTree _ => TabularSequence
  | ObjTDirectory _ _ => SubContainer
  | ObjOther _ _ _ => Opaque
  end.

(** The entries the iteration yields before it ends or throws, and
    whether it throws. *)
Fixpoint yielded (listing : list iteration) : list directory_entry :=
  match listing with
  | Yields entry :: rest => entry :: yielded rest
  | _ => []
  end.

Fixpoint throws (listing : list iteration) : bool :=
  match listing with
  | [] => false
  | Yields _ :: rest => throws rest
  | _ => true
  end.

(** The pure content of the scan: the files it opens and what it prints. *)
Definition opens (entry : directory_entry) : list TFile :=
  if is_directory entry then
    match pairGen entry with
    | Some keys => [{| fileName := entry_path entry ++ "/PairGen.root";
                       fileKeys := keys |}]
    | None => []
    end
  else [].

Definition opened (entries : list directory_entry) : list TFile :=
  flat_map opens entries.

Definition scan_line (entry : directory_entry) : list Event :=
  if is_directory entry then
    match pairGen entry with
    | Some _ => [Cout ("File " ++ (entry_path entry ++ "/PairGen.root")
                         ++ " is found and opened successfully.")]
    | None => [Cerr ("File " ++ (entry_path entry ++ "/PairGen.root")
                       ++ " not found or is corrupted!")]
    end
  else [].

Definition scan_log (entries : list directory_entry) : list Event :=
  flat_map scan_line entries.

Definition closes (inputFiles : list TFile) : list Event :=
  map (fun file => CloseFile (fileName file)) inputFiles.

(** ** The casts of a run *)








(** ** The bin loops as a fold *)

(** The coordinates the three bin loops visit, in the order they visit
    them. *)
Definition coordinates (h : TH1) : list (nat * nat * nat) :=
  flat_map (fun i =>
    flat_map (fun j =>
      map (fun k => (i, j, k)) (seq 0 (GetNbinsZ h + 2)))
      (seq 0 (GetNbinsY h + 2)))
    (seq 0 (GetNbinsX h + 2)).

Definition cell (h : TH1) (c : nat * nat * nat) : nat :=
  GetBin h (fst (fst c)) (snd (fst c)) (snd c).

Definition set_bin_at (vals : nat -> nat -> nat -> list double) (h : TH1)
    (c : nat * nat * nat) : TH1 :=
  set_bin h (fst (fst c)) (snd (fst c)) (snd c)
          (vals (fst (fst c)) (snd (fst c)) (snd c)).

(** Two histograms with the same dimension and the same axes. *)
Definition same_binning (a b : TH1) : Prop :=
  fDimension a = fDimension b /\ fXaxis a = fXaxis b
  /\ fYaxis a = fYaxis b /\ fZaxis a = fZaxis b.

(** The histograms the input files store under a name at their top. *)
Definition histograms_named (name : string) (inputFiles : list TFile) : list TH1 :=
  flat_map (fun file => match Get (fileKeys file) name with
                        | Some (ObjTH1 h) => [h]
                        | _ => []
                        end) inputFiles.

(** ** Where the histogram branch of [MergeDirectories] finds the cursor *)

(** The keys of a directory, read with the knowledge of whether the
    cursor is in the matching output directory: a histogram needs it
    there, a sub-directory leaves it elsewhere, every other record puts
    it back.  [placed o] holds when this is so in every directory of
    [o]. *)
Fixpoint placed (o : TObject) : bool :=
  match o with
  | ObjTDirectory _ keys =>
      (fix walk (at_home : bool) (l : list TObject) : bool :=
         match l with
         | [] => true
         | key :: rest =>
             match key with
             | ObjTH1 _ => at_home && walk at_home rest
             | ObjTDirectory _ _ => placed key && walk false rest
             | _ => walk true rest
             end
         end) true keys
  | _ => true
  end.

Fixpoint placed_keys (at_home : bool) (keys : list TObject) : bool :=
  match keys with
  | [] => true
  | key :: rest =>
      match key with
      | ObjTH1 _ => at_home && placed_keys at_home rest
      | ObjTDirectory _ _ => placed key && placed_keys false rest
      | _ => placed_keys true rest
      end
  end.

(** The parameters and the rows the input files store under a name at
    their top, in the order of the input files. *)
Definition parameters_named (name : string) (inputFiles : list TFile)
  : list TParameter :=
  flat_map (fun file => match Get (fileKeys file) name with
                        | Some (ObjTParameter p) => [p]
                        | _ => []
                        end) inputFiles.

Definition rows_named (name : string) (inputFiles : list TFile) : list Row :=
  flat_map (fun file => match Get (fileKeys file) name with
                        | Some (ObjTTree t) => tRows t
                        | _ => []
                        end) inputFiles.

Definition is_double (p : TParameter) : bool :=
  match fVal p with
  | ValDouble _ => true
  | _ => false
  end.

(** ** The lines of the driver *)

Definition no_files_line : Event := Cerr "No files found for merging.".
Definition create_failed_line : Event :=
  Cerr ("Failed to create the output file " ++ outputFileName).
Definition merging_line : Event :=
  Cout ("Merging files into " ++ outputFileName ++ "...").
Definition success_line : Event := Cout "Merging completed successfully.".

(** The trace of a run that reaches the loop, around the events [body]
    of the loop. *)
Definition completed_trace (entries : list directory_entry) (body : list Event)
  : list Event :=
  (scan_log entries ++ [merging_line] ++ body ++ [Cout newline]
     ++ closes (opened entries) ++ [CloseFile outputFileName; success_line])%list.

(** Induction over an object and, for a directory, over its keys. *)
Section TObject_induction.
Variable P : TObject -> Prop.
Hypothesis P_TH1 : forall h, P (ObjTH1 h).
Hypothesis P_TParameter : forall p, P (ObjTParameter p).
Hypothesis P_TTree : forall t, P (ObjTTree t).
Hypothesis P_TDirectory : forall name keys, Forall P keys -> P (ObjTDirectory name keys).
Hypothesis P_Other : forall c n payload, P (ObjOther c n payload).

Fixpoint TObject_forest_ind (o : TObject) : P o :=
  match o with
  | ObjTH1 h => P_TH1 h
  | ObjTParameter p => P_TParameter p
  | ObjTTree t => P_TTree t
  | ObjTDirectory name keys =>
      P_TDirectory name keys
        ((fix all (l : list TObject) : Forall P l :=
            match l with
            | [] => Forall_nil P
            | x :: r => Forall_cons x (TObject_forest_ind x) (all r)
            end) keys)
  | ObjOther c n payload => P_Other c n payload
  end.
End TObject_induction.

(** ** Sample inputs *)

Local Open Scope float_scope.

Definition axis1 : TAxis := {| fNbins := 1; fXmin := 0; fXmax := 1 |}.

(** A one-dimensional histogram with one bin between its two guard bins. *)
Definition histogram_of (name : string) (contents errors : list double) : TH1 :=
  {| hName := name; fDimension := 1;
     fXaxis := axis1; fYaxis := axis1; fZaxis := axis1;
     fArray := contents; fErrors := errors |}.

Definition one_bin (name : string) (under content over : double) : TH1 :=
  histogram_of name [under; content; over] [0; 0; 0].

Definition in_dir (path : string) (keys : list TObject) : directory_entry :=
  {| entry_path := path; is_directory := true; pairGen := Some keys |}.

(** The same histogram at the top of each file and inside [sub]. *)
Definition histogram_keys (under content : double) : list TObject :=
  [ObjTH1 (one_bin "h" under content 0);
   ObjTDirectory "sub" [ObjTH1 (one_bin "h" under content 0)]].

Definition histogram_inputs : list directory_entry :=
  [in_dir "./a" (histogram_keys 1 2); in_dir "./b" (histogram_keys 3 4)].

(** Event counts stored as [TParameter<Long64_t>]. *)
Definition count_inputs : list directory_entry :=
  [in_dir "./a" [ObjTParameter {| pName := "nEvents"; fVal := ValLong64 1000 |}];
   in_dir "./b" [ObjTParameter {| pName := "nEvents"; fVal := ValLong64 1500 |}]].

(** A [TParameter<double>] inside [sub]. *)
Definition weight_inputs : list directory_entry :=
  [in_dir "./a" [ObjTDirectory "sub"
                   [ObjTParameter {| pName := "w"; fVal := ValDouble 1.5 |}]];
   in_dir "./b" [ObjTDirectory "sub"
                   [ObjTParameter {| pName := "w"; fVal := ValDouble 2.5 |}]]].

Definition rows_a : list Row := [[1%Z; 10%Z]; [2%Z; 20%Z]].
Definition rows_b : list Row := [[3%Z; 30%Z]].

Definition tree_keys (rows : list Row) : list TObject :=
  [ObjTTree {| tName := "t"; tRows := rows |};
   ObjTDirectory "sub" [ObjTTree {| tName := "t"; tRows := rows |}]].

Definition tree_inputs : list directory_entry :=
  [in_dir "./a" (tree_keys rows_a); in_dir "./b" (tree_keys rows_b)].

(** A directory whose first key is a sub-directory and whose second key
    is a histogram. *)
Definition cursor_keys : list TObject :=
  [ObjTDirectory "d" [ObjTDirectory "s" []; ObjTH1 (one_bin "h" 0 5 0)]].

Definition cursor_inputs : list directory_entry := [in_dir "./a" cursor_keys].

(** The second file has [sub] but not the histogram in it. *)
Definition missing_inputs : list directory_entry :=
  [in_dir "./a" [ObjTDirectory "sub" [ObjTH1 (one_bin "g" 0 2 0)]];
   in_dir "./b" [ObjTDirectory "sub" []]].

(** The second file lacks the histogram at the top. *)
Definition top_missing_inputs : list directory_entry :=
  [in_dir "./a" [ObjTH1 (one_bin "g" 0 2 0)]; in_dir "./b" []].

(** The keys of [d] in [cursor_keys], at the top of the file. *)
Definition flat_cursor_inputs : list directory_entry :=
  [in_dir "./a" [ObjTDirectory "s" []; ObjTH1 (one_bin "h" 0 5 0)]].

(** The same parameter and the same histogram at both levels. *)
Definition level_keys (n content : double) : list TObject :=
  [ObjTParameter {| pName := "n"; fVal := ValDouble n |};
   ObjTH1 (one_bin "h" 0 content 0);
   ObjTDirectory "sub"
     [ObjTParameter {| pName := "n"; fVal := ValDouble n |};
      ObjTH1 (one_bin "h" 0 content 0)]].

Definition level_inputs : list directory_entry :=
  [in_dir "./a" (level_keys 1 2); in_dir "./b" (level_keys 2 4)].

(** Two files with every kind of record, and entries the scan skips. *)
Definition mixed_keys (n content : double) (rows : list Row) : list TObject :=
  [ObjTH1 (one_bin "h" 0 content 0);
   ObjTParameter {| pName := "n"; fVal := ValDouble n |};
   ObjTTree {| tName := "t"; tRows := rows |};
   ObjTDirectory "sub" [ObjTH1 (one_bin "g" 0 content 0);
                        ObjOther "TNamed" "note" [7%Z]];
   ObjOther "TNamed" "tag" [42%Z]].

Definition mixed_inputs : list directory_entry :=
  [in_dir "./a" (mixed_keys 1 2 rows_a);
   {| entry_path := "./README"; is_directory := false; pairGen := None |};
   {| entry_path := "./empty"; is_directory := true; pairGen := None |};
   in_dir "./b" (mixed_keys 2 4 rows_b)].

(** What the run over [mixed_inputs] does. *)
Definition mixed_trace : list Event :=
  Eval vm_compute in
    match run mixed_inputs true with
    | Some trace => trace
    | None => []
    end.



Definition file_a (keys : list TObject) : TFile :=
  {| fileName := "./a/PairGen.root"; fileKeys := keys |}.

Definition file_b (keys : list TObject) : TFile :=
  {| fileName := "./b/PairGen.root"; fileKeys := keys |}.

Local Close Scope float_scope.

(** ** The progress bar *)

(** [PrintProgressBar] computes in [float]: IEEE binary32, for which the
    Standard Library's specification of the IEEE operations is taken at
    precision 24 and maximal exponent 128.  The counters are [int]. *)
Definition barWidth : Z := 70.

Definition float_of_int (n : Z) : spec_float := binary_normalize 24 128 n 0 false.

Definition float_div (x y : spec_float) : spec_float := SFdiv 24 128 x y.

Definition float_mul (x y : spec_float) : spec_float := SFmul 24 128 x y.

(** A [float] promoted to [double] keeps its value. *)
Definition double_of_float (x : spec_float) : double := SF2Prim x.

(** Conversion of a floating-point value to [int]: truncation towards
    zero; no defined result for a value that is not a number or whose
    truncation is outside the range of [int]. *)
Definition int_of_float (x : spec_float) : option Z :=
  match x with
  | S754_zero _ => Some 0%Z
  | S754_finite s m e =>
      let magnitude :=
        (if 0 <=? e then Zpos m * 2 ^ e else Zpos m / 2 ^ (- e))%Z in
      let z := (if s then - magnitude else magnitude)%Z in
      if ((- 2 ^ 31 <=? z) && (z <? 2 ^ 31))%Z then Some z else None
  | _ => None
  end.

Definition int_of_double (x : double) : option Z := int_of_float (Prim2SF x).

(** Lines 21 and 23: [progress] and [pos]. *)
Definition progress_of (current total : Z) : spec_float :=
  float_div (float_of_int current) (float_of_int total).

Definition progress_position (current total : Z) : option Z :=
  int_of_float (float_mul (float_of_int barWidth) (progress_of current total)).

(** Line 29: [int(progress * 100.0)], computed in [double]. *)
Definition progress_percent (current total : Z) : option Z :=
  int_of_double (PrimFloat.mul (double_of_float (progress_of current total))
                               100%float).

(** Lines 24-28: the characters between the brackets. *)
Definition bar_char (pos i : Z) : string :=
  if (i <? pos)%Z then "=" else if (i =? pos)%Z then ">" else " ".

Definition progress_bar (pos : Z) : string :=
  concat "" (map (fun i => bar_char pos (Z.of_nat i)) (seq 0 (Z.to_nat barWidth))).

Definition carriage_return : string := String (ascii_of_nat 13) EmptyString.

(** What [std::cout << n] prints for an [int]. *)
Definition decimal (n : Z) : string := NilZero.string_of_int (Z.to_int n).

(** What the call [PrintProgressBar(current, total)] sends to the
    standard output: the text behind the event [ProgressBar current
    total]. *)
Definition PrintProgressBar_text (current total : Z) : option string :=
  match progress_position current total, progress_percent current total with
  | Some pos, Some percent =>
      Some ("[" ++ progress_bar pos ++ "] " ++ decimal percent ++ " %"
                ++ carriage_return)
  | _, _ => None
  end.

(** [n] copies of a text. *)
Fixpoint copies (n : nat) (s : string) : string :=
  match n with
  | O => ""
  | S m => s ++ copies m s
  end.

(** ** Kinds of events *)

(** What the walk over the records may do: print on the error stream,
    create a directory of the output file, write into the output file. *)
Definition walk_event (e : Event) : bool :=
  match e with
  | Cerr _ | Mkdir _ _ | WriteObj _ _ => true
  | _ => false
  end.

Definition is_progress (e : Event) : bool :=
  match e with ProgressBar _ _ => true | _ => false end.

Definition is_elsewhere (e : Event) : bool :=
  match e with WriteElsewhere _ => true | _ => false end.

Definition at_output (g : Cursor) : bool :=
  match g with AtOutput _ => true | _ => false end.

(** The histogram and its arrays keep the shape of the reference. *)
Definition same_shape (a b : TH1) : Prop :=
  hName a = hName b /\ same_binning a b
  /\ List.length (fArray a) = List.length (fArray b)
  /\ List.length (fErrors a) = List.length (fErrors b).

Definition lacks (name : string) (file : TFile) : bool :=
  match Get (fileKeys file) name with Some _ => false | None => true end.

(** The position of the arrow and the percentage in exact arithmetic. *)
Definition exact_position (current total : Z) : Z := (barWidth * current / total)%Z.

Definition exact_percent (current total : Z) : Z := (100 * current / total)%Z.

(** Whether the call [PrintProgressBar(current, total)] draws the exact
    position and prints the exact percentage or one less. *)
Definition bar_agrees (current total : Z) : bool :=
  match progress_position current total, progress_percent current total with
  | Some pos, Some percent =>
      (pos =? exact_position current total)%Z
      && ((percent =? exact_percent current total)%Z
          || (percent =? exact_percent current total - 1)%Z)
  | _, _ => false
  end.

Definition bar_agrees_up_to (n : nat) : bool :=
  forallb (fun total =>
             forallb (fun current => bar_agrees (Z.of_nat current) (Z.of_nat total))
                     (seq 1 total))
          (seq 1 n).

(** * Properties *)

(** ** Computations and loops *)

Lemma bind_run {A B : Type} (c : M A) (k : A -> M B) g a g1 ev1 :
  c g = Some (a, g1, ev1) ->
  bind c k g = match k a g1 with
               | None => None
               | Some (b, g2, ev2) => Some (b, g2, (ev1 ++ ev2)%list)
               end.
Proof. intros H. unfold bind. rewrite H. reflexivity. Qed.

Lemma foldM_cons {A S : Type} (body : S -> A -> M S) a l s :
  foldM body (a :: l) s = bind (body s a) (foldM body l).
Proof. reflexivity. Qed.

(** A loop whose iterations keep the carried value and the cursor keeps
    them, and emits what the iterations emit. *)
Lemma foldM_keeps {A S : Type} (body : S -> A -> M S) (line : A -> list Event)
    (l : list A) (s : S) (g : Cursor) :
  (forall a, In a l -> body s a g = Some (s, g, line a)) ->
  foldM body l s g = Some (s, g, flat_map line l).
Proof.
  induction l as [|a l IH]; intros Hbody.
  - reflexivity.
  - rewrite foldM_cons, (bind_run _ _ _ _ _ _ (Hbody a (or_introl eq_refl))).
    rewrite IH by (intros b Hb; apply Hbody; right; exact Hb).
    reflexivity.
Qed.

Lemma flat_map_singleton {A B : Type} (f : A -> B) (l : list A) :
  flat_map (fun a => [f a]) l = map f l.
Proof.
  induction l as [|a l IH]; [reflexivity|].
  cbn [flat_map map app]. rewrite IH. reflexivity.
Qed.

Lemma close_all_run (inputFiles : list TFile) (g : Cursor) :
  close_all inputFiles g = Some (tt, g, closes inputFiles).
Proof.
  unfold close_all, forM_, closes.
  rewrite (foldM_keeps _ (fun file => [CloseFile (fileName file)])).
  - rewrite flat_map_singleton. reflexivity.
  - intros a _. reflexivity.
Qed.

(** ** The scan *)

Lemma foldE_cons {A S : Type} (body : S -> A -> M (Exit S)) (a : A) (l : list A) (s : S) :
  foldE body (a :: l) s
  = (r <- body s a ;;
     match r with
     | Returned s' => foldE body l s'
     | Threw => ret Threw
     end).
Proof. reflexivity. Qed.

Lemma scan_step_run (inputFiles : list TFile) (entry : directory_entry) (g : Cursor) :
  exists g', scan_step inputFiles (Yields entry) g
             = Some (Returned (inputFiles ++ opens entry)%list, g', scan_line entry).
Proof.
  unfold scan_step, opens, scan_line.
  destruct (is_directory entry); [destruct (pairGen entry)|];
    eexists; cbv [bind cd emit ret]; rewrite ?app_nil_r; reflexivity.
Qed.

(** The scan opens the files of the entries yielded before the
    iteration ends or throws, and is left accordingly. *)
Lemma scan_from (listing : list iteration) :
  forall acc g, exists g',
    foldE scan_step listing acc g
    = Some (if throws listing then Threw
            else Returned (acc ++ opened (yielded listing))%list,
            g', scan_log (yielded listing)).
Proof.
  induction listing as [|[e| |] listing IH]; intros acc g.
  - exists g. cbn. rewrite app_nil_r. reflexivity.
  - destruct (scan_step_run acc e g) as [g1 H1].
    destruct (IH (acc ++ opens e)%list g1) as [g2 H2].
    exists g2. rewrite foldE_cons, (bind_run _ _ _ _ _ _ H1), H2.
    cbn [yielded throws]. unfold opened, scan_log. cbn [flat_map].
    rewrite app_assoc. reflexivity.
  - exists g. reflexivity.
  - exists g. reflexivity.
Qed.

Lemma yielded_all (entries : list directory_entry) :
  yielded (map Yields entries) = entries /\ throws (map Yields entries) = false.
Proof.
  induction entries as [|e entries [IHy IHt]]; [split; reflexivity|].
  cbn [map yielded throws]. rewrite IHy. split; [reflexivity|exact IHt].
Qed.

Lemma scan_log_quiet (entries : list directory_entry) :
  forallb (fun e => negb (touches_output e)) (scan_log entries) = true.
Proof.
  unfold scan_log. induction entries as [|e entries IH]; [reflexivity|].
  cbn [flat_map]. rewrite forallb_app, IH, andb_true_r.
  unfold scan_line. destruct (is_directory e); [destruct (pairGen e)|]; reflexivity.
Qed.

(** ** The shape of a run *)

(** The four ways the macro goes: the scan throws; no input file; no
    output file; the loop. *)
Lemma run_listing_shape (listing : list iteration) (creatable : bool) :
  run_listing listing creatable =
  if throws listing then Some (Threw, scan_log (yielded listing))
  else
    match opened (yielded listing) with
    | [] => Some (Returned tt, (scan_log (yielded listing) ++ [no_files_line])%list)
    | firstDir :: _ =>
        if creatable then
          option_map (fun body => (Returned tt, completed_trace (yielded listing) body))
            (events_of (merge_loop firstDir (opened (yielded listing)))
                       (AtInput (fileName firstDir)))
        else Some (Returned tt,
                   (scan_log (yielded listing) ++ [create_failed_line]
                      ++ closes (opened (yielded listing)))%list)
    end.
Proof.
  unfold run_listing, events_of, MergeSingleGenFiles, scan.
  destruct (scan_from listing [] AtROOT) as [g' H].
  rewrite (bind_run _ _ _ _ _ _ H). cbn [app].
  destruct (throws listing).
  - cbn [ret]. rewrite app_nil_r. reflexivity.
  - destruct (opened (yielded listing)) as [|firstDir others] eqn:Hopened.
    + reflexivity.
    + destruct creatable; cbn [negb].
      * unfold bind at 1. cbn [cd]. unfold bind at 1. cbn [emit].
        unfold bind at 1. cbn [cd]. unfold bind at 1.
        destruct (merge_loop firstDir (firstDir :: others) (AtInput (fileName firstDir)))
          as [[[n g1] body]|]; [|reflexivity].
        unfold bind at 1. cbn [emit]. unfold bind at 1.
        rewrite close_all_run. cbv [bind emit ret].
        cbn [option_map]. unfold completed_trace. rewrite Hopened.
        repeat (cbn [app]; rewrite <- ?app_assoc). reflexivity.
      * unfold bind at 1. cbn [emit]. unfold bind at 1. rewrite close_all_run.
        cbv [ret]. cbn [app]. rewrite app_nil_r. reflexivity.
Qed.

Lemma run_shape (entries : list directory_entry) (creatable : bool) :
  run entries creatable =
  match opened entries with
  | [] => Some (scan_log entries ++ [no_files_line])%list
  | firstDir :: _ =>
      if creatable then
        option_map (completed_trace entries)
          (events_of (merge_loop firstDir (opened entries))
                     (AtInput (fileName firstDir)))
      else Some (scan_log entries ++ [create_failed_line]
                   ++ closes (opened entries))%list
  end.
Proof.
  unfold run. rewrite run_listing_shape.
  destruct (yielded_all entries) as [-> ->].
  destruct (opened entries) as [|firstDir others]; [reflexivity|].
  destruct creatable; [|reflexivity].
  unfold events_of.
  destruct (merge_loop firstDir (firstDir :: others) (AtInput (fileName firstDir)))
    as [[[n g1] body]|]; reflexivity.
Qed.

(** ** The driver *)

Lemma quiet_app (a b : list Event) :
  forallb (fun e => negb (touches_output e)) (a ++ b)
  = forallb (fun e => negb (touches_output e)) a
    && forallb (fun e => negb (touches_output e)) b.
Proof. apply forallb_app. Qed.

Lemma closes_quiet (inputFiles : list TFile) :
  forallb (fun e => negb (touches_output e)) (closes inputFiles) = true.
Proof. unfold closes. induction inputFiles as [|f l IH]; [reflexivity|exact IH]. Qed.

(** A run that returns met no error of the iteration, and is the run
    over the entries the iteration yielded. *)
Lemma returned_run (listing : list iteration) (creatable : bool) (trace : list Event) :
  run_listing listing creatable = Some (Returned tt, trace)
  <-> throws listing = false /\ run (yielded listing) creatable = Some trace.
Proof.
  rewrite run_listing_shape, run_shape.
  destruct (throws listing).
  - split; [discriminate|intros [H _]; discriminate].
  - destruct (opened (yielded listing)) as [|firstDir others].
    + split; [intros H; injection H as <-; split; reflexivity|].
      intros [_ H]. injection H as <-. reflexivity.
    + destruct creatable.
      * destruct (events_of _ _) as [body|]; cbn [option_map].
        -- split; [intros H; injection H as <-; split; reflexivity|].
           intros [_ H]. injection H as <-. reflexivity.
        -- split; [discriminate|intros [_ H]; discriminate].
      * split; [intros H; injection H as <-; split; reflexivity|].
        intros [_ H]. injection H as <-. reflexivity.
Qed.

(** *** When a run has defined behaviour *)






















(** C10: a run that has opened at least one input file closes every one
    of them before it returns.  When the output file cannot be created
    the trace ends with the closing of the inputs and nothing is created
    or written in the output file; when the merge completes the inputs
    are closed, then the output file, then the success line is
    printed. *)
Theorem inputs_closed_on_every_return :
  forall (entries : list directory_entry) (creatable : bool) (trace : list Event),
    opened entries <> [] ->
    run entries creatable = Some trace ->
    if creatable then
      exists before,
        trace = (before ++ closes (opened entries)
                   ++ [CloseFile outputFileName; success_line])%list
    else
      trace = (scan_log entries ++ [create_failed_line]
                 ++ closes (opened entries))%list
      /\ forallb (fun e => negb (touches_output e)) trace = true.
Proof.
  intros entries creatable trace Hne Hrun.
  rewrite run_shape in Hrun.
  destruct (opened entries) as [|firstDir others] eqn:Hopened; [contradiction|].
  destruct creatable.
  - destruct (events_of _ _) as [body|]; [|discriminate].
    injection Hrun as <-.
    exists (scan_log entries ++ [merging_line] ++ body ++ [Cout newline])%list.
    unfold completed_trace. rewrite Hopened.
    repeat rewrite <- app_assoc. reflexivity.
  - injection Hrun as <-. split; [reflexivity|].
    rewrite quiet_app, scan_log_quiet. cbn [app forallb touches_output negb andb].
    apply closes_quiet.
Qed.

(** ** Records of no known kind *)

(** C8: a record that is neither a histogram, a parameter, a tree nor a
    directory is classified [Opaque]; both loops then write the object
    read from the first file, unchanged, into the current output
    directory, without reading any input file and without failing:
    the result does not depend on [inputFiles]. *)
Theorem opaque_is_copied_from_reference :
  forall (obj : TObject) (firstDir : TFile) (inputFiles : list TFile)
         (sourceDir : TDirectory) (outputDir : list string) (g : Cursor),
    classify obj <> SampledDistribution ->
    classify obj <> ScalarAggregate ->
    classify obj <> TabularSequence ->
    classify obj <> SubContainer ->
    classify obj = Opaque
    /\ merge_top_level firstDir inputFiles obj g
       = Some (tt, AtOutput [], [WriteObj [] (WrObject obj)])
    /\ merge_nested obj sourceDir inputFiles outputDir g
       = Some (tt, AtOutput outputDir, [WriteObj outputDir (WrObject obj)]).
Proof.
  intros obj firstDir inputFiles sourceDir outputDir g H1 H2 H3 H4.
  destruct obj; cbn [classify] in *; try contradiction.
  repeat split.
Qed.

(** ** Histograms nobody contributes to *)

Lemma flat_map_nothing {A B : Type} (l : list A) :
  flat_map (fun _ : A => @nil B) l = [].
Proof. induction l as [|a l IH]; [reflexivity|exact IH]. Qed.

Lemma forallb_flat_map {A B : Type} (p : B -> bool) (f : A -> list B) (l : list A) :
  (forall a, forallb p (f a) = true) -> forallb p (flat_map f l) = true.
Proof.
  intros H. induction l as [|a l IH]; [reflexivity|].
  cbn [flat_map]. rewrite forallb_app, H, IH. reflexivity.
Qed.

(** When every collection comes back empty the three loops return the
    clone as they found it. *)
Lemma merge_bins_empty (collect : nat -> nat -> nat -> M (list double))
    (line : nat -> nat -> nat -> list Event) (histClone : TH1) (g : Cursor) :
  (forall i j k, collect i j k g = Some ([], g, line i j k)) ->
  merge_bins collect histClone g
  = Some (histClone, g,
          flat_map (fun i =>
            flat_map (fun j =>
              flat_map (fun k => line i j k) (seq 0 (GetNbinsZ histClone + 2)))
              (seq 0 (GetNbinsY histClone + 2)))
            (seq 0 (GetNbinsX histClone + 2))).
Proof.
  intros Hc. unfold merge_bins.
  apply foldM_keeps. intros i _.
  apply foldM_keeps. intros j _.
  apply foldM_keeps. intros k _.
  unfold merge_bin. rewrite (bind_run _ _ _ _ _ _ (Hc i j k)).
  cbn [ret set_bin]. rewrite app_nil_r. reflexivity.
Qed.

Lemma collect_root_absent (inputFiles : list TFile) (name : string) (i j k : nat)
    (g : Cursor) :
  (forall file, In file inputFiles -> Get (fileKeys file) name = None) ->
  collect_root inputFiles name i j k g
  = Some ([], g,
          flat_map (fun file =>
            [Cerr ("Histogram " ++ name ++ " not found in file " ++ fileName file)])
            inputFiles).
Proof.
  intros H. unfold collect_root. apply foldM_keeps.
  intros file Hfile. unfold collect_root_step. rewrite (H file Hfile). reflexivity.
Qed.

Lemma collect_nested_absent (sourceDir : TDirectory) (inputFiles : list TFile)
    (name : string) (i j k : nat) (g : Cursor) :
  (forall file dir, In file inputFiles ->
     GetDirectory inputFiles file (GetPath sourceDir) = Some dir ->
     Get (dKeys dir) name = None) ->
  collect_nested sourceDir inputFiles name i j k g = Some ([], g, []).
Proof.
  intros H. unfold collect_nested.
  rewrite (foldM_keeps _ (fun _ => [])).
  - rewrite flat_map_nothing. reflexivity.
  - intros file Hfile. unfold collect_nested_step.
    destruct (GetDirectory inputFiles file (GetPath sourceDir)) as [dir|] eqn:E;
      [|reflexivity].
    rewrite (H file dir Hfile E). reflexivity.
Qed.

Lemma Reset_bins (h : TH1) (i j k : nat) :
  GetBinContent (Reset h) i j k = d0 /\ GetBinError (Reset h) i j k = d0.
Proof.
  assert (Hz : forall (l : list double) n, nth n (map (fun _ => d0) l) d0 = d0).
  { induction l as [|x l IH]; intros [|n]; cbn [map nth]; auto. }
  unfold GetBinContent, GetBinError. cbn [Reset fArray fErrors]. split; apply Hz.
Qed.

(** C7: when no input file yields the histogram, every collection is
    empty, no bin is set, and the object written is the zeroed clone of
    the reference histogram: each of its bins, guard bins included, has
    content 0 and error 0, and it has the dimension, the axes and the
    number of cells of the reference histogram.  The run goes on: at the
    top level it prints not-found lines on the error stream, inside
    [MergeDirectories] it prints nothing. *)
Theorem empty_sample_leaves_zero_bins :
  forall (h : TH1) (firstDir : TFile) (sourceDir : TDirectory)
         (inputFiles : list TFile) (outputDir : list string) (g : Cursor),
    (forall file, In file inputFiles -> Get (fileKeys file) (hName h) = None) ->
    (forall file dir, In file inputFiles ->
       GetDirectory inputFiles file (GetPath sourceDir) = Some dir ->
       Get (dKeys dir) (hName h) = None) ->
    (exists log,
       merge_top_level firstDir inputFiles (ObjTH1 h) g
       = Some (tt, AtOutput [], (log ++ [WriteObj [] (WrTH1 (Reset h))])%list)
       /\ forallb is_stderr log = true)
    /\ merge_nested (ObjTH1 h) sourceDir inputFiles outputDir (AtOutput outputDir)
       = Some (tt, AtOutput outputDir, [WriteObj outputDir (WrTH1 (Reset h))])
    /\ (forall i j k, GetBinContent (Reset h) i j k = d0
                      /\ GetBinError (Reset h) i j k = d0)
    /\ fDimension (Reset h) = fDimension h
    /\ fXaxis (Reset h) = fXaxis h
    /\ fYaxis (Reset h) = fYaxis h
    /\ fZaxis (Reset h) = fZaxis h
    /\ List.length (fArray (Reset h)) = List.length (fArray h).
Proof.
  intros h firstDir sourceDir inputFiles outputDir g Hroot Hnested.
  split; [|split; [|split; [exact (Reset_bins h)|]]].
  - eexists. split.
    + cbn [merge_top_level]. unfold bind at 1. cbn [cd].
      rewrite (bind_run _ _ _ _ _ _
                 (merge_bins_empty _ _ (Reset h) (AtOutput [])
                    (fun i j k => collect_root_absent inputFiles (hName (Reset h))
                                    i j k (AtOutput []) Hroot))).
      cbn [TObject_Write app]. reflexivity.
    + apply forallb_flat_map. intros i.
      apply forallb_flat_map. intros j.
      apply forallb_flat_map. intros k.
      apply forallb_flat_map. intros file. reflexivity.
  - cbn [merge_nested].
    rewrite (bind_run _ _ _ _ _ _
               (merge_bins_empty _ (fun _ _ _ => []) (Reset h) (AtOutput outputDir)
                  (fun i j k => collect_nested_absent sourceDir inputFiles
                                  (hName (Reset h)) i j k (AtOutput outputDir) Hnested))).
    cbn [TObject_Write]. repeat rewrite flat_map_nothing. reflexivity.
  - cbn [Reset fDimension fXaxis fYaxis fZaxis fArray].
    rewrite length_map. repeat split.
Qed.

(** ** Absolute paths and the receiver of [GetDirectory] *)

Lemma split_at_found (c : ascii) (s t : string) :
  exists l r, split_at c (s ++ String c t) = Some (l, r).
Proof.
  induction s as [|a s IH]; cbn [append split_at].
  - rewrite Ascii.eqb_refl. eexists. eexists. reflexivity.
  - destruct (Ascii.eqb a c); [eexists; eexists; reflexivity|].
    destruct IH as [l [r ->]]. eexists. eexists. reflexivity.
Qed.

Lemma GetPath_has_colon (d : TDirectory) :
  exists l r, split_at ":"%char (GetPath d) = Some (l, r).
Proof.
  unfold GetPath. destruct (dPath d); apply split_at_found.
Qed.

(** The path that [GetPath] returns names its file, so [GetDirectory]
    resolves it in that file whichever file receives the call. *)
Lemma GetDirectory_ignores_receiver (openFiles : list TFile) (self self' : TFile)
    (d : TDirectory) :
  GetDirectory openFiles self (GetPath d) = GetDirectory openFiles self' (GetPath d).
Proof.
  destruct (GetPath_has_colon d) as [l [r H]]. unfold GetDirectory.
  destruct (String.eqb (GetPath d) "") eqn:E.
  - apply String.eqb_eq in E. rewrite E in H. discriminate.
  - rewrite H. reflexivity.
Qed.

(** Inside [MergeDirectories] every input file therefore contributes the
    content of one and the same histogram. *)
Lemma collect_nested_repeats (sourceDir : TDirectory) (inputFiles : list TFile)
    (name : string) (i j k : nat) (g : Cursor) (self : TFile) (dir : TDirectory)
    (h : TH1) :
  GetDirectory inputFiles self (GetPath sourceDir) = Some dir ->
  Get (dKeys dir) name = Some (ObjTH1 h) ->
  collect_nested sourceDir inputFiles name i j k g
  = Some (repeat (GetBinContent h i j k) (List.length inputFiles), g, []).
Proof.
  intros Hdir Hget. unfold collect_nested.
  assert (Hgen : forall files acc,
             foldM (collect_nested_step sourceDir inputFiles name i j k) files acc g
             = Some ((acc ++ repeat (GetBinContent h i j k) (List.length files))%list,
                     g, [])).
  { induction files as [|f files IH]; intros acc.
    - cbn. rewrite app_nil_r. reflexivity.
    - rewrite foldM_cons.
      assert (Hstep : collect_nested_step sourceDir inputFiles name i j k acc f g
                      = Some ((acc ++ [GetBinContent h i j k])%list, g, [])).
      { unfold collect_nested_step.
        rewrite (GetDirectory_ignores_receiver inputFiles f self), Hdir, Hget.
        reflexivity. }
      rewrite (bind_run _ _ _ _ _ _ Hstep), IH.
      cbn [List.length repeat app]. rewrite <- app_assoc. reflexivity. }
  exact (Hgen inputFiles []).
Qed.

(** ** The macro on the sample inputs *)

Local Open Scope float_scope.

(** C1: two files hold the histogram [h] at the top and inside [sub],
    with contents (1, 2, 0) in the first file and (3, 4, 0) in the
    second.  At the top the merged bins are the means (2, 3, 0) with
    errors (1, 1, 0), as the formulas give for the samples {1, 3} and
    {2, 4}.  Inside [sub] the merged bins are (1, 2, 0) with errors 0:
    each bin is computed from two copies of the first file's content, not
    from the contents of the two files that hold the record. *)
Theorem nested_histogram_repeats_reference :
  option_map written_at (run histogram_inputs true)
  = Some [([], WrTH1 (histogram_of "h" [2; 3; 0] [1; 1; 0]));
          (["sub"], WrTH1 (histogram_of "h" [1; 2; 0] [0; 0; 0]))]
  /\ bin_mean [1; 3] = 2 /\ bin_stddev [1; 3] = 1
  /\ bin_mean [2; 4] = 3 /\ bin_stddev [2; 4] = 1
  /\ bin_mean [1; 1] = 1 /\ bin_stddev [1; 1] = 0
  /\ bin_mean [2; 2] = 2 /\ bin_stddev [2; 2] = 0.
Proof. vm_compute. repeat split. Qed.

(** C2: two files hold the event count [nEvents] as a
    [TParameter<Long64_t>], 1000 and 1500.  The sum of the two values is
    2500; the parameter written is the sum of the two bit patterns read
    as doubles, the subnormal number with pattern 2500.  Inside [sub],
    two [TParameter<double>] with values 1.5 and 2.5 are merged to 3, the
    first file's value twice, and not to their sum 4. *)
Theorem parameter_sum_misreads_and_repeats :
  option_map written_at (run count_inputs true)
  = Some [([], WrTParameterDouble "nEvents" (double_of_bits 2500))]
  /\ PrimFloat.eqb (double_of_bits 2500) 2500 = false
  /\ PrimFloat.ltb (double_of_bits 2500) 1 = true
  /\ double_of_Z 1000 + double_of_Z 1500 = 2500
  /\ option_map written_at (run weight_inputs true)
     = Some [(["sub"], WrTParameterDouble "w" 3)]
  /\ 1.5 + 2.5 = 4.
Proof. vm_compute. repeat split. Qed.

(** C3: two files hold the tree [t] at the top and inside [sub].  At the
    top the chain gets one element per file, naming the tree of that
    file, and the rows read back are those of the first file followed by
    those of the second.  Inside [sub] each element is the name of the
    file followed by the full path of the first file's directory; no
    such element names a tree of an input file, so none of the rows of
    either file is reached, while the elements [file/sub/t] would name
    them. *)
Theorem nested_tree_chain_names_no_tree :
  option_map written_at (run tree_inputs true)
  = Some [([], WrTree "t" ["./a/PairGen.root/t"; "./b/PairGen.root/t"]);
          (["sub"], WrTree "t" ["./a/PairGen.root/./a/PairGen.root:/sub/t";
                                "./b/PairGen.root/./a/PairGen.root:/sub/t"])]
  /\ TChain_rows (opened tree_inputs) ["./a/PairGen.root/t"; "./b/PairGen.root/t"]
     = (rows_a ++ rows_b)%list
  /\ map (chain_element_tree (opened tree_inputs))
         ["./a/PairGen.root/./a/PairGen.root:/sub/t";
          "./b/PairGen.root/./a/PairGen.root:/sub/t"]
     = [None; None]
  /\ TChain_rows (opened tree_inputs)
       ["./a/PairGen.root/./a/PairGen.root:/sub/t";
        "./b/PairGen.root/./a/PairGen.root:/sub/t"] = []
  /\ TChain_rows (opened tree_inputs)
       ["./a/PairGen.root/sub/t"; "./b/PairGen.root/sub/t"]
     = (rows_a ++ rows_b)%list.
Proof. vm_compute. repeat split. Qed.

(** C4: the first file has a directory [d] whose keys are the directory
    [s] and then the histogram [h].  The reference paths are [d], [d/s],
    [d/h]; the run creates [d] and [d/s] and writes the histogram to
    [d/s/h], because the histogram branch of [MergeDirectories] writes at
    the cursor, which the visit of [s] left in [d/s]. *)
Theorem histogram_after_subdirectory_is_misplaced :
  tree_paths cursor_keys = [["d"]; ["d"; "s"]; ["d"; "h"]]
  /\ option_map output_paths (run cursor_inputs true)
     = Some [["d"]; ["d"; "s"]; ["d"; "s"; "h"]].
Proof. vm_compute. repeat split. Qed.

(** C6: the first file holds the histogram [g] inside [sub], the second
    file has [sub] without it.  The run prints nothing about the missing
    histogram (its only line on the error stream announces the
    sub-directory), and the second file is not left out of the sample:
    the bin is collected as two values, both the first file's.  When the
    same histogram is missing at the top of the second file, the
    top-level loop prints a not-found line (one for each of the 27 bin
    coordinates it visits) and merges the first file's value alone. *)
Theorem nested_missing_record_is_silent :
  option_map (filter is_stderr) (run missing_inputs true)
  = Some [Cerr "Processing subdirectory: sub"]
  /\ collect_nested {| dFile := "./a/PairGen.root"; dPath := ["sub"];
                       dKeys := [ObjTH1 (one_bin "g" 0 2 0)] |}
                    (opened missing_inputs) "g" 1 0 0 (AtOutput ["sub"])
     = Some ([2; 2], AtOutput ["sub"], [])
  /\ option_map written_at (run missing_inputs true)
     = Some [(["sub"], WrTH1 (histogram_of "g" [0; 2; 0] [0; 0; 0]))]
  /\ option_map (filter is_stderr) (run top_missing_inputs true)
     = Some (repeat (Cerr "Histogram g not found in file ./b/PairGen.root") 27)
  /\ collect_root (opened top_missing_inputs) "g" 1 0 0 (AtOutput [])
     = Some ([2], AtOutput [],
             [Cerr "Histogram g not found in file ./b/PairGen.root"])
  /\ option_map written_at (run top_missing_inputs true)
     = Some [([], WrTH1 (histogram_of "g" [0; 2; 0] [0; 0; 0]))].
Proof. vm_compute. repeat split. Qed.

(** C9: two files hold the same parameter [n] (1 and 2) and the same
    histogram [h] (bin content 2 and 4) at the top and inside [sub].  The
    top-level loop writes the sum 3 and the mean 3 with error 1; the
    loop of [MergeDirectories] writes 2 and the content 2 with error 0
    for the same per-file contents.  The two loops also place a
    histogram that follows a sub-directory differently: at the top it is
    written beside the sub-directory, inside a directory it is written
    into the sub-directory. *)
Theorem top_level_and_nested_loops_differ :
  option_map written_at (run level_inputs true)
  = Some [([], WrTParameterDouble "n" 3);
          ([], WrTH1 (histogram_of "h" [0; 3; 0] [0; 1; 0]));
          (["sub"], WrTParameterDouble "n" 2);
          (["sub"], WrTH1 (histogram_of "h" [0; 2; 0] [0; 0; 0]))]
  /\ option_map output_paths (run flat_cursor_inputs true)
     = Some [["s"]; ["h"]]
  /\ option_map output_paths (run cursor_inputs true)
     = Some [["d"]; ["d"; "s"]; ["d"; "s"; "h"]].
Proof. vm_compute. repeat split. Qed.

Local Close Scope float_scope.

(** ** Instances *)

Lemma inputs_closed_witness :
  exists before,
    mixed_trace = (before ++ closes (opened mixed_inputs)
                     ++ [CloseFile outputFileName; success_line])%list.
Proof.
  refine (inputs_closed_on_every_return mixed_inputs true mixed_trace _ _).
  - vm_compute. discriminate.
  - vm_compute. reflexivity.
Defined.

Lemma opaque_copy_witness :
  merge_top_level (file_a [ObjOther "TNamed" "tag" [42%Z]])
                  [file_a [ObjOther "TNamed" "tag" [42%Z]]; file_b []]
                  (ObjOther "TNamed" "tag" [42%Z]) AtROOT
  = Some (tt, AtOutput [], [WriteObj [] (WrObject (ObjOther "TNamed" "tag" [42%Z]))]).
Proof.
  refine (proj1 (proj2 (opaque_is_copied_from_reference
                          (ObjOther "TNamed" "tag" [42%Z])
                          (file_a [ObjOther "TNamed" "tag" [42%Z]])
                          [file_a [ObjOther "TNamed" "tag" [42%Z]]; file_b []]
                          (top_of (file_a [])) [] AtROOT _ _ _ _)));
    discriminate.
Defined.

Lemma empty_sample_witness :
  merge_nested (ObjTH1 (one_bin "h" 0%float 5%float 0%float))
               {| dFile := "./a/PairGen.root"; dPath := ["sub"]; dKeys := [] |}
               [file_a [ObjTDirectory "sub" []]] ["sub"] (AtOutput ["sub"])
  = Some (tt, AtOutput ["sub"],
          [WriteObj ["sub"] (WrTH1 (Reset (one_bin "h" 0%float 5%float 0%float)))]).
Proof.
  refine (proj1 (proj2 (empty_sample_leaves_zero_bins
                          (one_bin "h" 0%float 5%float 0%float) (file_a [ObjTDirectory "sub" []])
                          {| dFile := "./a/PairGen.root"; dPath := ["sub"];
                             dKeys := [] |}
                          [file_a [ObjTDirectory "sub" []]] ["sub"] AtROOT _ _))).
  - intros file [<-|[]]. reflexivity.
  - intros file dir [<-|[]] H. vm_compute in H. injection H as <-. reflexivity.
Defined.

(** ** The top-level strategies on well-typed inputs *)

(** A loop whose iterations are pure in the cursor computes a left fold
    and emits what its iterations emit. *)
Lemma foldM_pure {A S : Type} (body : S -> A -> M S) (step : S -> A -> S)
    (line : A -> list Event) (l : list A) (g : Cursor) :
  (forall s a, In a l -> body s a g = Some (step s a, g, line a)) ->
  forall s, foldM body l s g = Some (fold_left step l s, g, flat_map line l).
Proof.
  induction l as [|a l IH]; intros Hbody s.
  - reflexivity.
  - rewrite foldM_cons, (bind_run _ _ _ _ _ _ (Hbody s a (or_introl eq_refl))).
    rewrite IH by (intros s' b Hb; apply Hbody; right; exact Hb).
    reflexivity.
Qed.

Lemma fold_left_gather {A B : Type} (f : A -> list B) (l : list A) (acc : list B) :
  fold_left (fun acc a => (acc ++ f a)%list) l acc = (acc ++ flat_map f l)%list.
Proof.
  revert acc. induction l as [|a l IH]; intros acc; cbn [fold_left flat_map].
  - rewrite app_nil_r. reflexivity.
  - rewrite IH, app_assoc. reflexivity.
Qed.

Lemma fold_left_flat_map {A B S : Type} (f : S -> B -> S) (g : A -> list B)
    (l : list A) (s : S) :
  fold_left f (flat_map g l) s = fold_left (fun s a => fold_left f (g a) s) l s.
Proof.
  revert s. induction l as [|a l IH]; intros s; cbn [fold_left flat_map].
  - reflexivity.
  - rewrite fold_left_app, IH. reflexivity.
Qed.

(** The top-level collection of one bin, when whatever a file stores
    under the name is a histogram: the contents of the histograms found,
    in the order of the input files, and one not-found line per file
    that lacks it. *)
Lemma collect_root_values (inputFiles : list TFile) (name : string) (i j k : nat)
    (g : Cursor) :
  (forall file o, In file inputFiles -> Get (fileKeys file) name = Some o ->
     classify o = SampledDistribution) ->
  collect_root inputFiles name i j k g
  = Some (flat_map (fun file => match Get (fileKeys file) name with
                                | Some (ObjTH1 h) => [GetBinContent h i j k]
                                | _ => []
                                end) inputFiles,
          g,
          flat_map (fun file => match Get (fileKeys file) name with
                                | Some _ => []
                                | None => [Cerr ("Histogram " ++ name
                                                   ++ " not found in file "
                                                   ++ fileName file)]
                                end) inputFiles).
Proof.
  intros Htyped. unfold collect_root.
  rewrite (foldM_pure _
             (fun acc file => (acc ++ match Get (fileKeys file) name with
                                      | Some (ObjTH1 h) => [GetBinContent h i j k]
                                      | _ => []
                                      end)%list)
             (fun file => match Get (fileKeys file) name with
                          | Some _ => []
                          | None => [Cerr ("Histogram " ++ name ++ " not found in file "
                                             ++ fileName file)]
                          end)).
  - rewrite fold_left_gather. reflexivity.
  - intros acc file Hfile. unfold collect_root_step.
    destruct (Get (fileKeys file) name) as [o|] eqn:E.
    + pose proof (Htyped file o Hfile E) as Hk.
      destruct o; cbn [classify] in Hk; try discriminate. reflexivity.
    + rewrite app_nil_r. reflexivity.
Qed.

(** The top-level sum, when whatever a file stores under the name is a
    parameter: the left-to-right sum, from 0, of what [GetVal] returns
    through the [TParameter<double>] pointer for the parameters found. *)
Lemma sum_root_value (inputFiles : list TFile) (objName : string) (g : Cursor) :
  (forall file o, In file inputFiles -> Get (fileKeys file) objName = Some o ->
     classify o = ScalarAggregate) ->
  exists log,
    sum_root inputFiles objName g
    = Some (fold_left PrimFloat.add
              (flat_map (fun file => match Get (fileKeys file) objName with
                                     | Some (ObjTParameter p) => [GetVal_as_double p]
                                     | _ => []
                                     end) inputFiles) d0,
            g, log).
Proof.
  intros Htyped. unfold sum_root. eexists.
  rewrite (foldM_pure _
             (fun total file =>
                fold_left PrimFloat.add
                  (match Get (fileKeys file) objName with
                   | Some (ObjTParameter p) => [GetVal_as_double p]
                   | _ => []
                   end) total)
             (fun file => match Get (fileKeys file) objName with
                          | Some _ => []
                          | None => [Cerr ("Parameter " ++ objName
                                             ++ " not found in file " ++ fileName file)]
                          end)).
  - rewrite <- fold_left_flat_map. reflexivity.
  - intros total file Hfile. unfold sum_root_step.
    destruct (Get (fileKeys file) objName) as [o|] eqn:E.
    + pose proof (Htyped file o Hfile E) as Hk.
      destruct o; cbn [classify] in Hk; try discriminate. reflexivity.
    + reflexivity.
Qed.

(** A [TParameter<double>] is read as the value it holds. *)
Lemma GetVal_of_double (name : string) (v : double) :
  GetVal_as_double {| pName := name; fVal := ValDouble v |} = v
  /\ numeric_value {| pName := name; fVal := ValDouble v |} = v.
Proof. split; reflexivity. Qed.

(** The top-level chain: one element per input file that stores
    something under the name, in the order of the input files, each
    naming the tree of that file. *)
Lemma chain_root_elements (inputFiles : list TFile) (objName : string) (g : Cursor) :
  exists log,
    chain_root inputFiles objName g
    = Some (flat_map (fun file => match Get (fileKeys file) objName with
                                  | Some _ => [fileName file ++ "/" ++ objName]
                                  | None => []
                                  end) inputFiles,
            g, log).
Proof.
  unfold chain_root. eexists.
  rewrite (foldM_pure _
             (fun chain file => (chain ++ match Get (fileKeys file) objName with
                                          | Some _ => [(fileName file ++ "/" ++ objName)%string]
                                          | None => []
                                          end)%list)
             (fun file => match Get (fileKeys file) objName with
                          | Some _ => []
                          | None => [Cerr ("Tree " ++ objName ++ " not found in file "
                                             ++ fileName file)]
                          end)).
  - rewrite fold_left_gather. reflexivity.
  - intros chain file Hfile. unfold chain_root_step.
    destruct (Get (fileKeys file) objName); [reflexivity|].
    rewrite app_nil_r. reflexivity.
Qed.

(** ** The strategies of [MergeDirectories] read one directory only *)

Lemma sum_nested_repeats (sourceDir : TDirectory) (inputFiles : list TFile)
    (objName : string) (g : Cursor) (self : TFile) (dir : TDirectory)
    (p : TParameter) :
  GetDirectory inputFiles self (GetPath sourceDir) = Some dir ->
  Get (dKeys dir) objName = Some (ObjTParameter p) ->
  sum_nested sourceDir inputFiles objName g
  = Some (fold_left PrimFloat.add
            (repeat (GetVal_as_double p) (List.length inputFiles)) d0, g, []).
Proof.
  intros Hdir Hget. unfold sum_nested.
  assert (Hfold : forall (l : list TFile) t,
             fold_left (fun total _ => PrimFloat.add total (GetVal_as_double p)) l t
             = fold_left PrimFloat.add (repeat (GetVal_as_double p) (List.length l)) t).
  { induction l as [|f l IH]; intros t; [reflexivity|].
    cbn [fold_left List.length repeat]. apply IH. }
  rewrite (foldM_pure _ (fun total _ => PrimFloat.add total (GetVal_as_double p))
             (fun _ => [])).
  - rewrite flat_map_nothing, Hfold. reflexivity.
  - intros total file _. unfold sum_nested_step.
    rewrite (GetDirectory_ignores_receiver inputFiles file self), Hdir, Hget.
    reflexivity.
Qed.

Lemma chain_nested_elements (sourceDir : TDirectory) (inputFiles : list TFile)
    (objName : string) (g : Cursor) (self : TFile) (dir : TDirectory) (o : TObject) :
  GetDirectory inputFiles self (GetPath sourceDir) = Some dir ->
  Get (dKeys dir) objName = Some o ->
  chain_nested sourceDir inputFiles objName g
  = Some (map (fun file => fileName file ++ "/" ++ GetPath dir ++ "/" ++ objName)
              inputFiles, g, []).
Proof.
  intros Hdir Hget. unfold chain_nested.
  rewrite (foldM_pure _
             (fun chain file =>
                (chain ++ [(fileName file ++ "/" ++ GetPath dir ++ "/" ++ objName)%string])%list)
             (fun _ => [])).
  - rewrite flat_map_nothing, fold_left_gather, flat_map_singleton. reflexivity.
  - intros chain file _. unfold chain_nested_step.
    rewrite (GetDirectory_ignores_receiver inputFiles file self), Hdir, Hget.
    reflexivity.
Qed.

(** ** The bin loops on well-typed inputs *)

Lemma fold_left_map {A B S : Type} (f : S -> B -> S) (m : A -> B) (l : list A) (s : S) :
  fold_left f (map m l) s = fold_left (fun s a => f s (m a)) l s.
Proof.
  revert s. induction l as [|a l IH]; intros s; [reflexivity|].
  cbn [map fold_left]. apply IH.
Qed.

Lemma fold_left_same {A S : Type} (f f' : S -> A -> S) (l : list A) (s : S) :
  (forall s a, f s a = f' s a) -> fold_left f l s = fold_left f' l s.
Proof.
  intros H. revert s. induction l as [|a l IH]; intros s; [reflexivity|].
  cbn [fold_left]. rewrite H. apply IH.
Qed.

Lemma fold_coordinates (vals : nat -> nat -> nat -> list double) (h h0 : TH1) :
  fold_left (set_bin_at vals) (coordinates h) h0
  = fold_left (fun hx i =>
      fold_left (fun hy j =>
        fold_left (fun hz k => set_bin hz i j k (vals i j k))
                  (seq 0 (GetNbinsZ h + 2)) hy)
        (seq 0 (GetNbinsY h + 2)) hx)
      (seq 0 (GetNbinsX h + 2)) h0.
Proof.
  unfold coordinates. rewrite fold_left_flat_map.
  apply fold_left_same. intros hx i.
  rewrite fold_left_flat_map. apply fold_left_same. intros hy j.
  rewrite fold_left_map. reflexivity.
Qed.

(** With a collection that is pure in the cursor, the three loops are a
    left fold of [set_bin] over the coordinates. *)
Lemma merge_bins_pure (collect : nat -> nat -> nat -> M (list double))
    (vals : nat -> nat -> nat -> list double) (line : nat -> nat -> nat -> list Event)
    (histClone : TH1) (g : Cursor) :
  (forall i j k, collect i j k g = Some (vals i j k, g, line i j k)) ->
  exists log,
    merge_bins collect histClone g
    = Some (fold_left (set_bin_at vals) (coordinates histClone) histClone, g, log).
Proof.
  intros Hc. unfold merge_bins. eexists.
  rewrite (foldM_pure _
             (fun hx i =>
                fold_left (fun hy j =>
                  fold_left (fun hz k => set_bin hz i j k (vals i j k))
                            (seq 0 (GetNbinsZ histClone + 2)) hy)
                  (seq 0 (GetNbinsY histClone + 2)) hx)
             (fun i => flat_map (fun j => flat_map (fun k => line i j k)
                                   (seq 0 (GetNbinsZ histClone + 2)))
                         (seq 0 (GetNbinsY histClone + 2)))).
  - rewrite fold_coordinates. reflexivity.
  - intros hx i _.
    apply (foldM_pure _
             (fun hy j => fold_left (fun hz k => set_bin hz i j k (vals i j k))
                            (seq 0 (GetNbinsZ histClone + 2)) hy)
             (fun j => flat_map (fun k => line i j k)
                         (seq 0 (GetNbinsZ histClone + 2)))).
    intros hy j _.
    apply (foldM_pure _ (fun hz k => set_bin hz i j k (vals i j k))
             (fun k => line i j k)).
    intros hz k _. unfold merge_bin. rewrite (bind_run _ _ _ _ _ _ (Hc i j k)).
    cbn [ret]. rewrite app_nil_r. reflexivity.
Qed.

Lemma nth_set_nth_same {A : Type} (v d : A) (l : list A) :
  forall n, n < List.length l -> nth n (set_nth n v l) d = v.
Proof.
  induction l as [|x l IH]; intros n Hn; cbn [List.length] in Hn; [lia|].
  destruct n as [|n]; cbn [set_nth nth]; [reflexivity|]. apply IH. lia.
Qed.

Lemma nth_set_nth_other {A : Type} (v d : A) (l : list A) :
  forall n m, n <> m -> nth m (set_nth n v l) d = nth m l d.
Proof.
  induction l as [|x l IH]; intros n m Hnm; [destruct n; reflexivity|].
  destruct n as [|n], m as [|m]; cbn [set_nth nth]; try reflexivity; [lia|].
  apply IH. lia.
Qed.

Lemma length_set_nth {A : Type} (v : A) (l : list A) :
  forall n, List.length (set_nth n v l) = List.length l.
Proof.
  induction l as [|x l IH]; intros [|n]; cbn [set_nth List.length]; auto.
Qed.

Lemma GetBin_same_binning (a b : TH1) :
  same_binning a b -> forall i j k, GetBin a i j k = GetBin b i j k.
Proof.
  intros [Hd [Hx [Hy Hz]]] i j k. unfold GetBin, GetNbinsX, GetNbinsY, GetNbinsZ.
  rewrite Hd, Hx, Hy, Hz. reflexivity.
Qed.

Lemma GetBin_SetBinContent (h : TH1) (i j k : nat) (v : double) (a b c : nat) :
  GetBin (SetBinContent h i j k v) a b c = GetBin h a b c.
Proof. reflexivity. Qed.

(** Setting a bin keeps the binning and the sizes of the two arrays. *)
Lemma set_bin_shape (h : TH1) (i j k : nat) (sample : list double) :
  same_binning (set_bin h i j k sample) h
  /\ List.length (fArray (set_bin h i j k sample)) = List.length (fArray h)
  /\ List.length (fErrors (set_bin h i j k sample)) = List.length (fErrors h).
Proof.
  unfold set_bin. destruct sample as [|v sample].
  - repeat split.
  - cbn [SetBinError SetBinContent fArray fErrors]. rewrite !length_set_nth.
    repeat split.
Qed.

Lemma fold_set_bin_shape (vals : nat -> nat -> nat -> list double)
    (coords : list (nat * nat * nat)) :
  forall h0,
    same_binning (fold_left (set_bin_at vals) coords h0) h0
    /\ List.length (fArray (fold_left (set_bin_at vals) coords h0))
       = List.length (fArray h0)
    /\ List.length (fErrors (fold_left (set_bin_at vals) coords h0))
       = List.length (fErrors h0).
Proof.
  induction coords as [|c coords IH]; intros h0; cbn [fold_left].
  - repeat split.
  - destruct (IH (set_bin_at vals h0 c)) as [[Hd [Hx [Hy Hz]]] [La Le]].
    destruct (set_bin_shape h0 (fst (fst c)) (snd (fst c)) (snd c)
                (vals (fst (fst c)) (snd (fst c)) (snd c)))
      as [[Hd' [Hx' [Hy' Hz']]] [La' Le']].
    unfold set_bin_at in *. repeat split; congruence.
Qed.

(** After the fold, a cell that some visited coordinate with a
    non-empty sample maps to holds the statistics of that sample,
    provided coordinates that share a cell share their sample. *)
Lemma fold_set_bin_at (vals : nat -> nat -> nat -> list double) (h0 : TH1)
    (coords : list (nat * nat * nat)) :
  (forall c c', In c coords -> In c' coords -> cell h0 c = cell h0 c' ->
     vals (fst (fst c)) (snd (fst c)) (snd c)
     = vals (fst (fst c')) (snd (fst c')) (snd c')) ->
  forall c, In c coords ->
    vals (fst (fst c)) (snd (fst c)) (snd c) <> [] ->
    cell h0 c < List.length (fArray h0) ->
    cell h0 c < List.length (fErrors h0) ->
    nth (cell h0 c) (fArray (fold_left (set_bin_at vals) coords h0)) d0
    = bin_mean (vals (fst (fst c)) (snd (fst c)) (snd c))
    /\ nth (cell h0 c) (fErrors (fold_left (set_bin_at vals) coords h0)) d0
       = bin_stddev (vals (fst (fst c)) (snd (fst c)) (snd c)).
Proof.
  induction coords as [|c' l IH] using rev_ind; intros Hshare c Hin Hne Ha He.
  - destruct Hin.
  - rewrite fold_left_app. cbn [fold_left].
    destruct (fold_set_bin_shape vals l h0) as [Hb [La Le]].
    assert (Hcell' : GetBin (fold_left (set_bin_at vals) l h0)
                            (fst (fst c')) (snd (fst c')) (snd c') = cell h0 c')
      by (apply GetBin_same_binning; exact Hb).
    assert (IH' : In c l ->
              nth (cell h0 c) (fArray (fold_left (set_bin_at vals) l h0)) d0
              = bin_mean (vals (fst (fst c)) (snd (fst c)) (snd c))
              /\ nth (cell h0 c) (fErrors (fold_left (set_bin_at vals) l h0)) d0
                 = bin_stddev (vals (fst (fst c)) (snd (fst c)) (snd c))).
    { intros Hl. apply IH; try assumption.
      intros a b Hina Hinb. apply Hshare; apply in_or_app; left; assumption. }
    unfold set_bin_at at 1 3. unfold set_bin.
    destruct (vals (fst (fst c')) (snd (fst c')) (snd c')) as [|v sample] eqn:Ev.
    + apply in_app_or in Hin. destruct Hin as [Hl|[<-|[]]]; [exact (IH' Hl)|].
      contradiction.
    + cbn [SetBinError SetBinContent fArray fErrors].
      rewrite GetBin_SetBinContent, Hcell'.
      destruct (Nat.eq_dec (cell h0 c') (cell h0 c)) as [Heq|Hneq].
      * assert (Hsame : vals (fst (fst c)) (snd (fst c)) (snd c) = v :: sample).
        { rewrite <- Ev. apply Hshare; [exact Hin|apply in_or_app; right; left; reflexivity|].
          symmetry. exact Heq. }
        rewrite Heq, Hsame.
        rewrite !nth_set_nth_same by (rewrite ?La, ?Le; assumption).
        split; reflexivity.
      * rewrite !nth_set_nth_other by exact Hneq.
        apply in_app_or in Hin. destruct Hin as [Hl|[<-|[]]]; [exact (IH' Hl)|].
        contradiction Hneq. reflexivity.
Qed.

Lemma sample_of_histograms (name : string) (inputFiles : list TFile) (i j k : nat) :
  flat_map (fun file => match Get (fileKeys file) name with
                        | Some (ObjTH1 h) => [GetBinContent h i j k]
                        | _ => []
                        end) inputFiles
  = map (fun h' => GetBinContent h' i j k) (histograms_named name inputFiles).
Proof.
  unfold histograms_named. induction inputFiles as [|f l IH]; [reflexivity|].
  cbn [flat_map]. rewrite map_app, IH.
  destruct (Get (fileKeys f) name) as [[h| | | |]|]; reflexivity.
Qed.

Lemma in_coordinates (h : TH1) (i j k : nat) :
  i < GetNbinsX h + 2 -> j < GetNbinsY h + 2 -> k < GetNbinsZ h + 2 ->
  In (i, j, k) (coordinates h).
Proof.
  intros Hi Hj Hk. unfold coordinates.
  apply in_flat_map. exists i. split; [apply in_seq; lia|].
  apply in_flat_map. exists j. split; [apply in_seq; lia|].
  apply in_map. apply in_seq. lia.
Qed.

(** X1: at the top level, for input files whose object of that name is a
    histogram with the binning of the reference, every bin of the merged
    histogram, guard bins included, that has at least one contribution
    holds the mean and the standard deviation of the contents found in
    the input files that hold the histogram: with x1, ..., xn these
    contents in input order, the content is (0 + x1 + ... + xn) / n and
    the error is sqrt ((0 + x1 x1 + ... + xn xn) / n - mean mean), every
    operation being the binary64 one, rounded on its own. *)
Lemma top_level_histogram_statistics (h : TH1) (firstDir : TFile)
    (inputFiles : list TFile) (g : Cursor) :
  (forall file o, In file inputFiles -> Get (fileKeys file) (hName h) = Some o ->
     classify o = SampledDistribution) ->
  (forall h', In h' (histograms_named (hName h) inputFiles) -> same_binning h' h) ->
  (forall i j k, GetBin h i j k < List.length (fArray h)
                 /\ GetBin h i j k < List.length (fErrors h)) ->
  exists merged log,
    merge_top_level firstDir inputFiles (ObjTH1 h) g
    = Some (tt, AtOutput [], (log ++ [WriteObj [] (WrTH1 merged)])%list)
    /\ same_binning merged h
    /\ forall i j k,
         i < GetNbinsX h + 2 -> j < GetNbinsY h + 2 -> k < GetNbinsZ h + 2 ->
         let sample := map (fun h' => GetBinContent h' i j k)
                           (histograms_named (hName h) inputFiles) in
         let n := PrimFloat.of_uint63 (Uint63.of_Z (Z.of_nat (List.length sample))) in
         let mean := PrimFloat.div (fold_left PrimFloat.add sample 0%float) n in
         let sq_sum :=
           fold_left (fun acc x => PrimFloat.add acc (PrimFloat.mul x x)) sample
                     0%float in
         sample <> [] ->
         GetBinContent merged i j k = mean
         /\ GetBinError merged i j k
            = PrimFloat.sqrt (PrimFloat.sub (PrimFloat.div sq_sum n)
                                            (PrimFloat.mul mean mean)).
Proof.
  intros Htyped Hbinning Hsize.
  set (vals := fun i j k => map (fun h' => GetBinContent h' i j k)
                                (histograms_named (hName h) inputFiles)).
  destruct (merge_bins_pure (collect_root inputFiles (hName (Reset h))) vals
              (fun _ _ _ =>
                 flat_map (fun file => match Get (fileKeys file) (hName h) with
                                       | Some _ => []
                                       | None => [Cerr ("Histogram " ++ hName h
                                                          ++ " not found in file "
                                                          ++ fileName file)]
                                       end) inputFiles)
              (Reset h) (AtOutput [])) as [log Hmerge].
  { intros i j k. cbn [Reset hName].
    rewrite (collect_root_values inputFiles (hName h) i j k (AtOutput []) Htyped).
    rewrite sample_of_histograms. reflexivity. }
  set (merged := fold_left (set_bin_at vals) (coordinates (Reset h)) (Reset h)) in *.
  destruct (fold_set_bin_shape vals (coordinates (Reset h)) (Reset h))
    as [Hshape [La Le]]. fold merged in Hshape, La, Le.
  exists merged, log. split; [|split].
  - cbn [merge_top_level]. unfold bind at 1. cbn [cd].
    rewrite (bind_run _ _ _ _ _ _ Hmerge). reflexivity.
  - destruct Hshape as [Hd [Hx [Hy Hz]]]. repeat split; assumption.
  - intros i j k Hi Hj Hk sample n mean sq_sum Hne.
    change (GetBinContent merged i j k = bin_mean (vals i j k)
            /\ GetBinError merged i j k = bin_stddev (vals i j k)).
    change (vals i j k <> []) in Hne.
    assert (Hcell : forall a b c, GetBin merged a b c = GetBin h a b c).
    { intros a b c. rewrite (GetBin_same_binning _ _ Hshape). reflexivity. }
    unfold GetBinContent at 1, GetBinError. rewrite Hcell.
    change (GetBin h i j k) with (cell (Reset h) (i, j, k)).
    apply (fold_set_bin_at vals (Reset h) (coordinates (Reset h))).
    + intros c c' _ _ Hcc. unfold vals. apply map_ext_in. intros h' Hh'.
      unfold GetBinContent.
      rewrite !(GetBin_same_binning _ _ (Hbinning h' Hh')).
      change (cell (Reset h) c = cell (Reset h) c') in Hcc.
      unfold cell in Hcc. change (GetBin (Reset h)) with (GetBin h) in Hcc.
      rewrite Hcc. reflexivity.
    + apply in_coordinates; assumption.
    + exact Hne.
    + cbn [Reset fArray]. rewrite length_map. apply Hsize.
    + cbn [Reset fErrors]. rewrite length_map. apply Hsize.
Qed.

(** ** The paths a completed run creates *)

Lemma placed_directory (name : string) (keys : list TObject) :
  placed (ObjTDirectory name keys) = placed_keys true keys.
Proof.
  cbn [placed].
  match goal with
  | |- ?walk true keys = _ =>
      assert (H : forall at_home, walk at_home keys = placed_keys at_home keys)
  end.
  { induction keys as [|key rest IH]; intros at_home; [reflexivity|].
    cbn [placed_keys]. destruct key; rewrite IH; reflexivity. }
  apply H.
Qed.

Lemma bind_inv {A B : Type} (c : M A) (k : A -> M B) g b g2 ev :
  bind c k g = Some (b, g2, ev) ->
  exists a g1 ev1 ev2,
    c g = Some (a, g1, ev1) /\ k a g1 = Some (b, g2, ev2) /\ ev = (ev1 ++ ev2)%list.
Proof.
  unfold bind. destruct (c g) as [[[a g1] ev1]|]; [|discriminate].
  destruct (k a g1) as [[[b' g2'] ev2]|] eqn:E; [|discriminate].
  intros H. injection H as <- <- <-. exists a, g1, ev1, ev2.
  split; [reflexivity|]. split; [exact E|reflexivity].
Qed.

Lemma output_paths_app (a b : list Event) :
  output_paths (a ++ b) = (output_paths a ++ output_paths b)%list.
Proof. apply flat_map_app. Qed.

(** A loop whose iterations keep the cursor, create nothing in the
    output file and keep a property of the carried value does the
    same. *)
Lemma foldM_quiet {A S : Type} (body : S -> A -> M S) (P : S -> Prop) (l : list A) :
  (forall s a g s' g' ev, body s a g = Some (s', g', ev) -> P s ->
     g' = g /\ output_paths ev = [] /\ P s') ->
  forall s g s' g' ev, foldM body l s g = Some (s', g', ev) -> P s ->
    g' = g /\ output_paths ev = [] /\ P s'.
Proof.
  intros Hbody. induction l as [|a l IH]; intros s g s' g' ev H Hs.
  - injection H as <- <- <-. repeat split. exact Hs.
  - rewrite foldM_cons in H. apply bind_inv in H.
    destruct H as [s1 [g1 [ev1 [ev2 [H1 [H2 ->]]]]]].
    destruct (Hbody _ _ _ _ _ _ H1 Hs) as [-> [Hq1 Hs1]].
    destruct (IH _ _ _ _ _ H2 Hs1) as [-> [Hq2 Hs2]].
    rewrite output_paths_app, Hq1, Hq2. repeat split. exact Hs2.
Qed.

Lemma collect_root_quiet (inputFiles : list TFile) (name : string) (i j k : nat)
    (g : Cursor) (v : list double) (g' : Cursor) (ev : list Event) :
  collect_root inputFiles name i j k g = Some (v, g', ev) ->
  g' = g /\ output_paths ev = [].
Proof.
  intros H. unfold collect_root in H.
  destruct (foldM_quiet (collect_root_step name i j k) (fun _ => True) inputFiles)
    with (s := @nil double) (g := g) (s' := v) (g' := g') (ev := ev)
    as [Hg [Hq _]]; auto.
  intros s file g0 s' g0' ev0 Hstep _. unfold collect_root_step in Hstep.
  destruct (Get (fileKeys file) name) as [[h| | | |]|]; cbn in Hstep;
    try discriminate; injection Hstep as <- <- <-; repeat split.
Qed.

Lemma collect_nested_quiet (sourceDir : TDirectory) (inputFiles : list TFile)
    (name : string) (i j k : nat) (g : Cursor) (v : list double) (g' : Cursor)
    (ev : list Event) :
  collect_nested sourceDir inputFiles name i j k g = Some (v, g', ev) ->
  g' = g /\ output_paths ev = [].
Proof.
  intros H. unfold collect_nested in H.
  destruct (foldM_quiet (collect_nested_step sourceDir inputFiles name i j k)
              (fun _ => True) inputFiles)
    with (s := @nil double) (g := g) (s' := v) (g' := g') (ev := ev)
    as [Hg [Hq _]]; auto.
  intros s file g0 s' g0' ev0 Hstep _. unfold collect_nested_step in Hstep.
  destruct (GetDirectory inputFiles file (GetPath sourceDir)) as [dir|];
    [destruct (Get (dKeys dir) name) as [[h| | | |]|]|]; cbn in Hstep;
    try discriminate; injection Hstep as <- <- <-; repeat split.
Qed.

Lemma sum_root_quiet (inputFiles : list TFile) (objName : string)
    (g : Cursor) (v : double) (g' : Cursor) (ev : list Event) :
  sum_root inputFiles objName g = Some (v, g', ev) ->
  g' = g /\ output_paths ev = [].
Proof.
  intros H. unfold sum_root in H.
  destruct (foldM_quiet (sum_root_step objName) (fun _ => True) inputFiles)
    with (s := d0) (g := g) (s' := v) (g' := g') (ev := ev) as [Hg [Hq _]]; auto.
  intros s file g0 s' g0' ev0 Hstep _. unfold sum_root_step in Hstep.
  destruct (Get (fileKeys file) objName) as [[| p | | |]|]; cbn in Hstep;
    try discriminate; injection Hstep as <- <- <-; repeat split.
Qed.

Lemma sum_nested_quiet (sourceDir : TDirectory) (inputFiles : list TFile)
    (objName : string) (g : Cursor) (v : double) (g' : Cursor) (ev : list Event) :
  sum_nested sourceDir inputFiles objName g = Some (v, g', ev) ->
  g' = g /\ output_paths ev = [].
Proof.
  intros H. unfold sum_nested in H.
  destruct (foldM_quiet (sum_nested_step sourceDir inputFiles objName)
              (fun _ => True) inputFiles)
    with (s := d0) (g := g) (s' := v) (g' := g') (ev := ev) as [Hg [Hq _]]; auto.
  intros s file g0 s' g0' ev0 Hstep _. unfold sum_nested_step in Hstep.
  destruct (GetDirectory inputFiles file (GetPath sourceDir)) as [dir|];
    [destruct (Get (dKeys dir) objName) as [[| p | | |]|]|]; cbn in Hstep;
    try discriminate; injection Hstep as <- <- <-; repeat split.
Qed.

Lemma chain_root_quiet (inputFiles : list TFile) (objName : string)
    (g : Cursor) (v : list string) (g' : Cursor) (ev : list Event) :
  chain_root inputFiles objName g = Some (v, g', ev) ->
  g' = g /\ output_paths ev = [].
Proof.
  intros H. unfold chain_root in H.
  destruct (foldM_quiet (chain_root_step objName) (fun _ => True) inputFiles)
    with (s := @nil string) (g := g) (s' := v) (g' := g') (ev := ev)
    as [Hg [Hq _]]; auto.
  intros s file g0 s' g0' ev0 Hstep _. unfold chain_root_step in Hstep.
  destruct (Get (fileKeys file) objName); cbn in Hstep;
    injection Hstep as <- <- <-; repeat split.
Qed.

Lemma chain_nested_quiet (sourceDir : TDirectory) (inputFiles : list TFile)
    (objName : string) (g : Cursor) (v : list string) (g' : Cursor) (ev : list Event) :
  chain_nested sourceDir inputFiles objName g = Some (v, g', ev) ->
  g' = g /\ output_paths ev = [].
Proof.
  intros H. unfold chain_nested in H.
  destruct (foldM_quiet (chain_nested_step sourceDir inputFiles objName)
              (fun _ => True) inputFiles)
    with (s := @nil string) (g := g) (s' := v) (g' := g') (ev := ev)
    as [Hg [Hq _]]; auto.
  intros s file g0 s' g0' ev0 Hstep _. unfold chain_nested_step in Hstep.
  destruct (GetDirectory inputFiles file (GetPath sourceDir)) as [dir|];
    [destruct (Get (dKeys dir) objName)|]; cbn in Hstep;
    injection Hstep as <- <- <-; repeat split.
Qed.

Lemma set_bin_name (h : TH1) (i j k : nat) (sample : list double) :
  hName (set_bin h i j k sample) = hName h.
Proof. unfold set_bin. destruct sample; reflexivity. Qed.

(** The bin loops keep the cursor and the name of the clone, and create
    nothing in the output file, when the collection does not. *)
Lemma merge_bins_quiet (collect : nat -> nat -> nat -> M (list double))
    (histClone : TH1) (g : Cursor) (merged : TH1) (g' : Cursor) (ev : list Event) :
  (forall i j k g0 v g1 ev0, collect i j k g0 = Some (v, g1, ev0) ->
     g1 = g0 /\ output_paths ev0 = []) ->
  merge_bins collect histClone g = Some (merged, g', ev) ->
  g' = g /\ output_paths ev = [] /\ hName merged = hName histClone.
Proof.
  intros Hc H. unfold merge_bins in H.
  refine (foldM_quiet _ (fun m => hName m = hName histClone) _ _ _ _ _ _ _ H eq_refl).
  intros hx i gx hx' gx' evx Hx Px.
  refine (foldM_quiet _ (fun m => hName m = hName histClone) _ _ _ _ _ _ _ Hx Px).
  intros hy j gy hy' gy' evy Hy Py.
  refine (foldM_quiet _ (fun m => hName m = hName histClone) _ _ _ _ _ _ _ Hy Py).
  intros hz k gz hz' gz' evz Hz Pz.
  unfold merge_bin in Hz. apply bind_inv in Hz.
  destruct Hz as [v [g1 [ev1 [ev2 [H1 [H2 ->]]]]]].
  destruct (Hc _ _ _ _ _ _ _ H1) as [-> Hq].
  injection H2 as <- <- <-. rewrite app_nil_r, set_bin_name. repeat split; assumption.
Qed.

(** Inside [MergeDirectories], a record of a directory in which every
    histogram finds the cursor at home is created at its reference
    path. *)
Lemma merge_nested_paths (inputFiles : list TFile) (obj : TObject) :
  forall sourceDir outputDir g g' ev,
    merge_nested obj sourceDir inputFiles outputDir g = Some (tt, g', ev) ->
    placed obj = true ->
    (classify obj = SampledDistribution -> g = AtOutput outputDir) ->
    output_paths ev = reference_paths outputDir obj
    /\ (classify obj <> SubContainer -> g' = AtOutput outputDir).
Proof.
  induction obj as [h|p|t|name keys IH|c n payload] using TObject_forest_ind;
    intros sourceDir outputDir g g' ev H Hplaced Hhome; cbn [merge_nested GetName] in H.
  - apply bind_inv in H. destruct H as [m [g1 [ev1 [ev2 [H1 [H2 ->]]]]]].
    destruct (merge_bins_quiet _ _ _ _ _ _
                (fun i j k g0 v g2 ev0 =>
                   collect_nested_quiet sourceDir inputFiles _ i j k g0 v g2 ev0) H1)
      as [-> [Hq Hname]].
    rewrite (Hhome eq_refl) in H2. cbn [TObject_Write] in H2.
    injection H2 as <- <-.
    rewrite output_paths_app, Hq. cbn. rewrite Hname. split; reflexivity.
  - apply bind_inv in H. destruct H as [v [g1 [ev1 [ev2 [H1 [H2 ->]]]]]].
    destruct (sum_nested_quiet _ _ _ _ _ _ _ H1) as [-> Hq].
    injection H2 as <- <-. rewrite output_paths_app, Hq. split; reflexivity.
  - apply bind_inv in H. destruct H as [v [g1 [ev1 [ev2 [H1 [H2 ->]]]]]].
    destruct (chain_nested_quiet _ _ _ _ _ _ _ H1) as [-> Hq].
    injection H2 as <- <-. rewrite output_paths_app, Hq. split; reflexivity.
  - split; [|intros Hc; contradiction Hc; reflexivity].
    apply bind_inv in H. destruct H as [[] [g1 [ev1 [ev2 [H1 [H2 ->]]]]]].
    injection H1 as <- <-.
    apply bind_inv in H2. destruct H2 as [[] [g2 [ev3 [ev4 [H3 [H4 ->]]]]]].
    injection H3 as <- <-.
    rewrite placed_directory in Hplaced.
    cbn [app output_paths flat_map reference_paths]. f_equal.
    change (flat_map _ ev4) with (output_paths ev4).
    unfold forM_ in H4.
    assert (Hloop : forall keys', Forall
              (fun o => forall sourceDir outputDir g g' ev,
                 merge_nested o sourceDir inputFiles outputDir g = Some (tt, g', ev) ->
                 placed o = true ->
                 (classify o = SampledDistribution -> g = AtOutput outputDir) ->
                 output_paths ev = reference_paths outputDir o
                 /\ (classify o <> SubContainer -> g' = AtOutput outputDir)) keys' ->
              forall at_home g0 g0' ev0,
                foldM (fun _ key =>
                         merge_nested key
                           {| dFile := dFile sourceDir;
                              dPath := (dPath sourceDir ++ [name])%list;
                              dKeys := keys |} inputFiles (outputDir ++ [name])%list)
                      keys' tt g0 = Some (tt, g0', ev0) ->
                placed_keys at_home keys' = true ->
                (at_home = true -> g0 = AtOutput (outputDir ++ [name])%list) ->
                output_paths ev0
                = flat_map (reference_paths (outputDir ++ [name])%list) keys').
    { induction keys' as [|key rest IHrest]; intros Hall at_home g0 g0' ev0 Hrun Hp Hh.
      - injection Hrun as <- <-. reflexivity.
      - rewrite foldM_cons in Hrun. apply bind_inv in Hrun.
        destruct Hrun as [[] [ga [eva [evb [Ha [Hb ->]]]]]].
        inversion Hall as [|? ? Hkey Hrest]; subst.
        rewrite output_paths_app. cbn [flat_map].
        cbn [placed_keys] in Hp.
        destruct key as [h|p|t|dname dkeys|c n payload].
        + apply andb_prop in Hp. destruct Hp as [Hat Hp].
          destruct (Hkey _ _ _ _ _ Ha eq_refl (fun _ => Hh Hat)) as [-> Hg].
          f_equal. apply (IHrest Hrest at_home _ _ _ Hb Hp).
          intros _. apply Hg. discriminate.
        + destruct (Hkey _ _ _ _ _ Ha eq_refl (fun Hc => ltac:(discriminate Hc)))
            as [-> Hg].
          f_equal. apply (IHrest Hrest true _ _ _ Hb Hp).
          intros _. apply Hg. discriminate.
        + destruct (Hkey _ _ _ _ _ Ha eq_refl (fun Hc => ltac:(discriminate Hc)))
            as [-> Hg].
          f_equal. apply (IHrest Hrest true _ _ _ Hb Hp).
          intros _. apply Hg. discriminate.
        + apply andb_prop in Hp. destruct Hp as [Hpk Hp].
          destruct (Hkey _ _ _ _ _ Ha Hpk (fun Hc => ltac:(discriminate Hc)))
            as [-> _].
          f_equal. apply (IHrest Hrest false _ _ _ Hb Hp). discriminate.
        + destruct (Hkey _ _ _ _ _ Ha eq_refl (fun Hc => ltac:(discriminate Hc)))
            as [-> Hg].
          f_equal. apply (IHrest Hrest true _ _ _ Hb Hp).
          intros _. apply Hg. discriminate. }
    exact (Hloop keys IH true _ _ _ H4 Hplaced (fun _ => eq_refl)).
  - cbv [bind cd TObject_Write] in H. injection H as <- <-. split; reflexivity.
Qed.

(** The top-level loop sets the cursor before every write, so only the
    directories below the top are constrained. *)
Lemma merge_top_level_paths (firstDir : TFile) (inputFiles : list TFile)
    (obj : TObject) (g g' : Cursor) (ev : list Event) :
  merge_top_level firstDir inputFiles obj g = Some (tt, g', ev) ->
  placed obj = true ->
  output_paths ev = reference_paths [] obj.
Proof.
  intros H Hplaced.
  destruct obj as [h|p|t|name keys|c n payload]; cbn [merge_top_level GetName] in H.
  - apply bind_inv in H. destruct H as [[] [g1 [ev1 [ev2 [H1 [H2 ->]]]]]].
    injection H1 as <- <-.
    apply bind_inv in H2. destruct H2 as [m [g2 [ev3 [ev4 [H3 [H4 ->]]]]]].
    destruct (merge_bins_quiet _ _ _ _ _ _
                (fun i j k g0 v g3 ev0 =>
                   collect_root_quiet inputFiles _ i j k g0 v g3 ev0) H3)
      as [-> [Hq Hname]].
    injection H4 as <- <-.
    cbn [app]. rewrite output_paths_app, Hq. cbn. rewrite Hname. reflexivity.
  - apply bind_inv in H. destruct H as [v [g1 [ev1 [ev2 [H1 [H2 ->]]]]]].
    destruct (sum_root_quiet _ _ _ _ _ _ H1) as [-> Hq].
    injection H2 as <- <-. rewrite output_paths_app, Hq. reflexivity.
  - apply bind_inv in H. destruct H as [v [g1 [ev1 [ev2 [H1 [H2 ->]]]]]].
    destruct (chain_root_quiet _ _ _ _ _ _ H1) as [-> Hq].
    injection H2 as <- <-. rewrite output_paths_app, Hq. reflexivity.
  - apply bind_inv in H. destruct H as [[] [g1 [ev1 [ev2 [H1 [H2 ->]]]]]].
    injection H1 as <- <-.
    apply bind_inv in H2. destruct H2 as [[] [g2 [ev3 [ev4 [H3 [H4 ->]]]]]].
    injection H3 as <- <-.
    assert (Hnested : merge_nested (ObjTDirectory name keys) (top_of firstDir)
                        inputFiles [] (AtOutput []) = Some (tt, g', ev4)).
    { cbn [merge_nested top_of dFile dPath app]. exact H4. }
    destruct (merge_nested_paths inputFiles _ _ _ _ _ _ Hnested Hplaced
                (fun Hc => ltac:(discriminate Hc))) as [Hpaths _].
    cbn [app output_paths flat_map]. exact Hpaths.
  - cbv [bind cd TObject_Write] in H. injection H as <- <-. reflexivity.
Qed.

Lemma merge_loop_paths (firstDir : TFile) (inputFiles : list TFile) (totalObjs : nat)
    (keys : list TObject) :
  forall objCount g n g' ev,
    foldM (merge_loop_step firstDir inputFiles totalObjs) keys objCount g
    = Some (n, g', ev) ->
    forallb placed keys = true ->
    output_paths ev = tree_paths keys.
Proof.
  induction keys as [|key rest IH]; intros objCount g n g' ev H Hp.
  - injection H as <- <- <-. reflexivity.
  - rewrite foldM_cons in H. apply bind_inv in H.
    destruct H as [n1 [g1 [ev1 [ev2 [H1 [H2 ->]]]]]].
    cbn [forallb] in Hp. apply andb_prop in Hp. destruct Hp as [Hkey Hrest].
    unfold merge_loop_step in H1. apply bind_inv in H1.
    destruct H1 as [[] [g2 [ev3 [ev4 [H3 [H4 ->]]]]]].
    cbv [bind PrintProgressBar emit ret] in H4. injection H4 as <- <- <-.
    unfold tree_paths. cbn [flat_map].
    rewrite !output_paths_app, (merge_top_level_paths _ _ _ _ _ _ H3 Hkey).
    cbn [output_paths flat_map app]. rewrite app_nil_r. f_equal.
    exact (IH _ _ _ _ _ H2 Hrest).
Qed.

Lemma quiet_no_paths (l : list Event) :
  forallb (fun e => negb (touches_output e)) l = true -> output_paths l = [].
Proof.
  induction l as [|e l IH]; [reflexivity|].
  cbn [forallb]. intros H. apply andb_prop in H. destruct H as [He Hl].
  unfold output_paths. cbn [flat_map]. fold (output_paths l). rewrite (IH Hl).
  destruct e; cbn in He; try discriminate; reflexivity.
Qed.

(** X4: a run that completes creates the reference paths, in the reference
    order, when in every directory below the top each histogram finds
    the cursor at home. *)
Lemma completed_run_paths (entries : list directory_entry) (trace : list Event)
    (firstDir : TFile) (others : list TFile) :
  opened entries = firstDir :: others ->
  forallb placed (fileKeys firstDir) = true ->
  run entries true = Some trace ->
  output_paths trace = tree_paths (fileKeys firstDir).
Proof.
  intros Hopened Hplaced Hrun. rewrite run_shape, Hopened in Hrun.
  unfold events_of in Hrun.
  destruct (merge_loop firstDir (firstDir :: others) (AtInput (fileName firstDir)))
    as [[[n g'] body]|] eqn:Hloop; [|discriminate].
  injection Hrun as <-. unfold completed_trace.
  rewrite !output_paths_app, (quiet_no_paths _ (scan_log_quiet entries)).
  rewrite (quiet_no_paths _ (closes_quiet (opened entries))).
  unfold merging_line, success_line. cbn [output_paths flat_map app].
  rewrite app_nil_r.
  exact (merge_loop_paths _ _ _ _ _ _ _ _ _ Hloop Hplaced).
Qed.

(** ** Parameters and trees at the top level *)

Lemma values_of_parameters (name : string) (inputFiles : list TFile) :
  flat_map (fun file => match Get (fileKeys file) name with
                        | Some (ObjTParameter p) => [GetVal_as_double p]
                        | _ => []
                        end) inputFiles
  = map GetVal_as_double (parameters_named name inputFiles).
Proof.
  unfold parameters_named. induction inputFiles as [|f l IH]; [reflexivity|].
  cbn [flat_map]. rewrite map_app, IH.
  destruct (Get (fileKeys f) name) as [[| p | | |]|]; reflexivity.
Qed.

(** X2: at the top level, for input files whose object of that name is a
    parameter, the value written is the left-to-right sum, from 0, of
    what the [TParameter<double>] pointer reads in the files that hold
    the parameter; when each of them is a [TParameter<double>] this is
    the sum of their values. *)
Lemma top_level_parameter_sum (p : TParameter) (firstDir : TFile)
    (inputFiles : list TFile) (g : Cursor) :
  (forall file o, In file inputFiles -> Get (fileKeys file) (pName p) = Some o ->
     classify o = ScalarAggregate) ->
  exists log,
    merge_top_level firstDir inputFiles (ObjTParameter p) g
    = Some (tt, AtOutput [],
            (log ++ [WriteObj [] (WrTParameterDouble (pName p)
                                    (fold_left PrimFloat.add
                                       (map GetVal_as_double
                                            (parameters_named (pName p) inputFiles))
                                       d0))])%list)
    /\ (forallb is_double (parameters_named (pName p) inputFiles) = true ->
        map GetVal_as_double (parameters_named (pName p) inputFiles)
        = map numeric_value (parameters_named (pName p) inputFiles)).
Proof.
  intros Htyped.
  destruct (sum_root_value inputFiles (pName p) g Htyped) as [log Hsum].
  rewrite values_of_parameters in Hsum.
  exists log. split.
  - cbn [merge_top_level GetName]. rewrite (bind_run _ _ _ _ _ _ Hsum).
    reflexivity.
  - intros Hall. apply map_ext_in. intros q Hq.
    rewrite forallb_forall in Hall. specialize (Hall q Hq).
    unfold is_double in Hall. unfold GetVal_as_double, numeric_value.
    destruct (fVal q); try discriminate. reflexivity.
Qed.

Lemma strip_prefix_append (a b s : string) :
  strip_prefix (a ++ b) (a ++ b ++ s) = Some s.
Proof.
  induction a as [|c a IH]; cbn [append strip_prefix].
  - induction b as [|c b IHb]; cbn [append strip_prefix]; [reflexivity|].
    rewrite Ascii.eqb_refl. exact IHb.
  - rewrite Ascii.eqb_refl. exact IH.
Qed.

(** An element [file/name] names the tree [name] at the top of that
    file, when no other file name followed by a slash starts the
    element and the tree name has no slash. *)
Lemma chain_element_tree_found (disk : list TFile) (f : TFile) (name : string)
    (t : TTree) :
  In f disk ->
  (forall f', In f' disk -> fileName f' = fileName f -> fileKeys f' = fileKeys f) ->
  (forall f', In f' disk -> fileName f' <> fileName f ->
     strip_prefix (fileName f' ++ "/") (fileName f ++ "/" ++ name) = None) ->
  components name = [name] ->
  Get (fileKeys f) name = Some (ObjTTree t) ->
  chain_element_tree disk (fileName f ++ "/" ++ name) = Some t.
Proof.
  intros Hin Hsame Hother Hplain Hget.
  induction disk as [|f' disk IH]; [destruct Hin|].
  cbn [chain_element_tree].
  destruct (String.eqb (fileName f') (fileName f)) eqn:E.
  - apply String.eqb_eq in E.
    rewrite E, strip_prefix_append, Hplain. cbn [object_at].
    rewrite (Hsame f' (or_introl eq_refl) E), Hget. reflexivity.
  - apply String.eqb_neq in E.
    rewrite (Hother f' (or_introl eq_refl) E).
    apply IH.
    + destruct Hin as [<-|Hin]; [contradiction E; reflexivity|exact Hin].
    + intros f0 H0. apply Hsame. right. exact H0.
    + intros f0 H0. apply Hother. right. exact H0.
Qed.

(** X3: at the top level, for input files with distinct names whose object
    of that name is a tree, the rows read back from the chain written
    are the rows of the input files that hold the tree, file after file
    in the order of the input files, each file's rows in their order. *)
Lemma top_level_tree_rows (t : TTree) (firstDir : TFile) (inputFiles : list TFile)
    (g : Cursor) :
  (forall file o, In file inputFiles -> Get (fileKeys file) (tName t) = Some o ->
     classify o = TabularSequence) ->
  (forall f f', In f inputFiles -> In f' inputFiles ->
     fileName f' = fileName f -> fileKeys f' = fileKeys f) ->
  (forall f f', In f inputFiles -> In f' inputFiles -> fileName f' <> fileName f ->
     strip_prefix (fileName f' ++ "/") (fileName f ++ "/" ++ tName t) = None) ->
  components (tName t) = [tName t] ->
  exists log elements,
    merge_top_level firstDir inputFiles (ObjTTree t) g
    = Some (tt, AtOutput [], (log ++ [WriteObj [] (WrTree (tName t) elements)])%list)
    /\ TChain_rows inputFiles elements = rows_named (tName t) inputFiles
    /\ List.length (TChain_rows inputFiles elements)
       = list_sum (map (fun file => match Get (fileKeys file) (tName t) with
                                    | Some (ObjTTree t') => List.length (tRows t')
                                    | _ => 0
                                    end) inputFiles).
Proof.
  intros Htyped Hsame Hother Hplain.
  destruct (chain_root_elements inputFiles (tName t) g) as [log Hchain].
  assert (Hrows : forall l, incl l inputFiles ->
            TChain_rows inputFiles
              (flat_map (fun file => match Get (fileKeys file) (tName t) with
                                     | Some _ => [fileName file ++ "/" ++ tName t]
                                     | None => []
                                     end) l)
            = rows_named (tName t) l).
  { induction l as [|f l IH]; intros Hincl; [reflexivity|].
    unfold TChain_rows, rows_named in *. cbn [flat_map].
    rewrite flat_map_app, IH by (intros x Hx; apply Hincl; right; exact Hx).
    f_equal.
    assert (Hf : In f inputFiles) by (apply Hincl; left; reflexivity).
    destruct (Get (fileKeys f) (tName t)) as [o|] eqn:E; [|reflexivity].
    pose proof (Htyped f o Hf E) as Hk.
    destruct o as [| |t'| |]; cbn [classify] in Hk; try discriminate.
    cbn [flat_map].
    rewrite (chain_element_tree_found inputFiles f (tName t) t' Hf
               (fun f' Hf' => Hsame f f' Hf Hf')
               (fun f' Hf' => Hother f f' Hf Hf') Hplain E).
    apply app_nil_r. }
  eexists. eexists. split; [|split].
  - cbn [merge_top_level GetName]. rewrite (bind_run _ _ _ _ _ _ Hchain).
    reflexivity.
  - apply Hrows. apply incl_refl.
  - rewrite (Hrows inputFiles (incl_refl _)). unfold rows_named.
    clear. induction inputFiles as [|f l IH]; [reflexivity|].
    cbn [flat_map map list_sum]. rewrite length_app, IH.
    destruct (Get (fileKeys f) (tName t)) as [[| |t'| |]|]; reflexivity.
Qed.

(** ** The top-level lemmas on the sample inputs *)

Lemma top_level_tree_rows_instance :
  exists log elements,
    merge_top_level (file_a (tree_keys rows_a)) (opened tree_inputs)
                    (ObjTTree {| tName := "t"; tRows := rows_a |}) AtROOT
    = Some (tt, AtOutput [], (log ++ [WriteObj [] (WrTree "t" elements)])%list)
    /\ TChain_rows (opened tree_inputs) elements = (rows_a ++ rows_b)%list.
Proof.
  destruct (top_level_tree_rows {| tName := "t"; tRows := rows_a |}
              (file_a (tree_keys rows_a)) (opened tree_inputs) AtROOT)
    as [log [elements [Hrun [Hrows _]]]].
  - intros file o [<-|[<-|[]]] H; vm_compute in H; injection H as <-; reflexivity.
  - intros f f' [<-|[<-|[]]] [<-|[<-|[]]] H; vm_compute in H;
      try discriminate; reflexivity.
  - intros f f' [<-|[<-|[]]] [<-|[<-|[]]] H; try (contradiction H; reflexivity);
      reflexivity.
  - reflexivity.
  - exists log, elements. split; [exact Hrun|]. rewrite Hrows. reflexivity.
Defined.

Lemma top_level_histogram_statistics_instance :
  exists merged log,
    merge_top_level (file_a (histogram_keys 1 2)%float) (opened histogram_inputs)
                    (ObjTH1 (one_bin "h" 1 2 0)%float) AtROOT
    = Some (tt, AtOutput [], (log ++ [WriteObj [] (WrTH1 merged)])%list)
    /\ GetBinContent merged 0 0 0 = 2%float
    /\ GetBinError merged 0 0 0 = 1%float
    /\ GetBinContent merged 1 0 0 = 3%float
    /\ GetBinError merged 1 0 0 = 1%float.
Proof.
  destruct (top_level_histogram_statistics (one_bin "h" 1 2 0)%float
              (file_a (histogram_keys 1 2)%float) (opened histogram_inputs) AtROOT)
    as [merged [log [Hrun [_ Hbins]]]].
  - intros file o [<-|[<-|[]]] H; vm_compute in H; injection H as <-; reflexivity.
  - intros h' [<-|[<-|[]]]; repeat split.
  - intros i j k. unfold GetBin. cbn. split; lia.
  - exists merged, log. split; [exact Hrun|].
    destruct (Hbins 0 0 0) as [Hc0 He0]; [cbn; lia|cbn; lia|cbn; lia|discriminate|].
    destruct (Hbins 1 0 0) as [Hc1 He1]; [cbn; lia|cbn; lia|cbn; lia|discriminate|].
    rewrite Hc0, He0, Hc1, He1. vm_compute. repeat split.
Defined.

Lemma completed_run_paths_instance :
  option_map output_paths (run mixed_inputs true)
  = Some (tree_paths (mixed_keys 1%float 2%float rows_a)).
Proof.
  destruct (run mixed_inputs true) as [trace|] eqn:Hrun; [|vm_compute in Hrun; discriminate].
  cbn [option_map]. f_equal.
  apply (completed_run_paths mixed_inputs trace (file_a (mixed_keys 1%float 2%float rows_a))
           [file_b (mixed_keys 2%float 4%float rows_b)]); [reflexivity|reflexivity|exact Hrun].
Defined.

(** * Further properties of the macro *)

(** ** What the walk over the records emits *)

Lemma forallb_weaken {A : Type} (p q : A -> bool) (l : list A) :
  (forall a, p a = true -> q a = true) -> forallb p l = true -> forallb q l = true.
Proof.
  intros Hpq. induction l as [|a l IH]; [reflexivity|].
  cbn [forallb]. intros H. apply andb_prop in H. destruct H as [Ha Hl].
  rewrite (Hpq a Ha), (IH Hl). reflexivity.
Qed.

(** A loop whose iterations keep the cursor and only print on the error
    stream does the same. *)
Lemma foldM_stderr {A S : Type} (body : S -> A -> M S) (l : list A) :
  (forall s a g s' g' ev, body s a g = Some (s', g', ev) ->
     g' = g /\ forallb is_stderr ev = true) ->
  forall s g s' g' ev, foldM body l s g = Some (s', g', ev) ->
    g' = g /\ forallb is_stderr ev = true.
Proof.
  intros Hbody. induction l as [|a l IH]; intros s g s' g' ev H.
  - injection H as <- <- <-. split; reflexivity.
  - rewrite foldM_cons in H. apply bind_inv in H.
    destruct H as [s1 [g1 [ev1 [ev2 [H1 [H2 ->]]]]]].
    destruct (Hbody _ _ _ _ _ _ H1) as [-> Hq1].
    destruct (IH _ _ _ _ _ H2) as [-> Hq2].
    rewrite forallb_app, Hq1, Hq2. split; reflexivity.
Qed.

Lemma collect_root_stderr (inputFiles : list TFile) (name : string) (i j k : nat)
    (g : Cursor) (v : list double) (g' : Cursor) (ev : list Event) :
  collect_root inputFiles name i j k g = Some (v, g', ev) ->
  g' = g /\ forallb is_stderr ev = true.
Proof.
  apply foldM_stderr. intros s file g0 s' g0' ev0 Hstep.
  unfold collect_root_step in Hstep.
  destruct (Get (fileKeys file) name) as [[h| | | |]|]; cbn in Hstep;
    try discriminate; injection Hstep as <- <- <-; split; reflexivity.
Qed.

Lemma collect_nested_stderr (sourceDir : TDirectory) (inputFiles : list TFile)
    (name : string) (i j k : nat) (g : Cursor) (v : list double) (g' : Cursor)
    (ev : list Event) :
  collect_nested sourceDir inputFiles name i j k g = Some (v, g', ev) ->
  g' = g /\ forallb is_stderr ev = true.
Proof.
  apply foldM_stderr. intros s file g0 s' g0' ev0 Hstep.
  unfold collect_nested_step in Hstep.
  destruct (GetDirectory inputFiles file (GetPath sourceDir)) as [dir|];
    [destruct (Get (dKeys dir) name) as [[h| | | |]|]|]; cbn in Hstep;
    try discriminate; injection Hstep as <- <- <-; split; reflexivity.
Qed.

Lemma sum_root_stderr (inputFiles : list TFile) (objName : string)
    (g : Cursor) (v : double) (g' : Cursor) (ev : list Event) :
  sum_root inputFiles objName g = Some (v, g', ev) ->
  g' = g /\ forallb is_stderr ev = true.
Proof.
  apply foldM_stderr. intros s file g0 s' g0' ev0 Hstep.
  unfold sum_root_step in Hstep.
  destruct (Get (fileKeys file) objName) as [[| p | | |]|]; cbn in Hstep;
    try discriminate; injection Hstep as <- <- <-; split; reflexivity.
Qed.

Lemma sum_nested_stderr (sourceDir : TDirectory) (inputFiles : list TFile)
    (objName : string) (g : Cursor) (v : double) (g' : Cursor) (ev : list Event) :
  sum_nested sourceDir inputFiles objName g = Some (v, g', ev) ->
  g' = g /\ forallb is_stderr ev = true.
Proof.
  apply foldM_stderr. intros s file g0 s' g0' ev0 Hstep.
  unfold sum_nested_step in Hstep.
  destruct (GetDirectory inputFiles file (GetPath sourceDir)) as [dir|];
    [destruct (Get (dKeys dir) objName) as [[| p | | |]|]|]; cbn in Hstep;
    try discriminate; injection Hstep as <- <- <-; split; reflexivity.
Qed.

Lemma chain_root_stderr (inputFiles : list TFile) (objName : string)
    (g : Cursor) (v : list string) (g' : Cursor) (ev : list Event) :
  chain_root inputFiles objName g = Some (v, g', ev) ->
  g' = g /\ forallb is_stderr ev = true.
Proof.
  apply foldM_stderr. intros s file g0 s' g0' ev0 Hstep.
  unfold chain_root_step in Hstep.
  destruct (Get (fileKeys file) objName); cbn in Hstep;
    injection Hstep as <- <- <-; split; reflexivity.
Qed.

Lemma chain_nested_stderr (sourceDir : TDirectory) (inputFiles : list TFile)
    (objName : string) (g : Cursor) (v : list string) (g' : Cursor) (ev : list Event) :
  chain_nested sourceDir inputFiles objName g = Some (v, g', ev) ->
  g' = g /\ forallb is_stderr ev = true.
Proof.
  apply foldM_stderr. intros s file g0 s' g0' ev0 Hstep.
  unfold chain_nested_step in Hstep.
  destruct (GetDirectory inputFiles file (GetPath sourceDir)) as [dir|];
    [destruct (Get (dKeys dir) objName)|]; cbn in Hstep;
    injection Hstep as <- <- <-; split; reflexivity.
Qed.

Lemma merge_bins_stderr (collect : nat -> nat -> nat -> M (list double))
    (histClone : TH1) (g : Cursor) (merged : TH1) (g' : Cursor) (ev : list Event) :
  (forall i j k g0 v g1 ev0, collect i j k g0 = Some (v, g1, ev0) ->
     g1 = g0 /\ forallb is_stderr ev0 = true) ->
  merge_bins collect histClone g = Some (merged, g', ev) ->
  g' = g /\ forallb is_stderr ev = true.
Proof.
  intros Hc. unfold merge_bins.
  apply foldM_stderr. intros hx i gx hx' gx' evx.
  apply foldM_stderr. intros hy j gy hy' gy' evy.
  apply foldM_stderr. intros hz k gz hz' gz' evz Hz.
  unfold merge_bin in Hz. apply bind_inv in Hz.
  destruct Hz as [v [g1 [ev1 [ev2 [H1 [H2 ->]]]]]].
  destruct (Hc _ _ _ _ _ _ _ H1) as [-> Hq].
  injection H2 as <- <- <-. rewrite app_nil_r. split; [reflexivity|exact Hq].
Qed.

Lemma stderr_is_walk (ev : list Event) :
  forallb is_stderr ev = true -> forallb walk_event ev = true.
Proof. apply forallb_weaken. intros [ | | | | | | ]; cbn; congruence. Qed.

(** Inside [MergeDirectories], started with the cursor in the output
    file, a record leaves the cursor in the output file and emits only
    lines on the error stream, directory creations and writes into the
    output file. *)
Lemma merge_nested_walk (inputFiles : list TFile) (obj : TObject) :
  forall sourceDir outputDir g g' ev,
    merge_nested obj sourceDir inputFiles outputDir g = Some (tt, g', ev) ->
    at_output g = true ->
    at_output g' = true /\ forallb walk_event ev = true.
Proof.
  induction obj as [h|p|t|name keys IH|c n payload] using TObject_forest_ind;
    intros sourceDir outputDir g g' ev H Hg; cbn [merge_nested GetName] in H.
  - apply bind_inv in H. destruct H as [m [g1 [ev1 [ev2 [H1 [H2 ->]]]]]].
    destruct (merge_bins_stderr _ _ _ _ _ _
                (fun i j k g0 v g2 ev0 =>
                   collect_nested_stderr sourceDir inputFiles _ i j k g0 v g2 ev0) H1)
      as [-> Hq].
    destruct g as [| |path]; try discriminate Hg.
    injection H2 as <- <-.
    rewrite forallb_app, (stderr_is_walk _ Hq). split; reflexivity.
  - apply bind_inv in H. destruct H as [v [g1 [ev1 [ev2 [H1 [H2 ->]]]]]].
    destruct (sum_nested_stderr _ _ _ _ _ _ _ H1) as [-> Hq].
    injection H2 as <- <-.
    rewrite forallb_app, (stderr_is_walk _ Hq). split; reflexivity.
  - apply bind_inv in H. destruct H as [v [g1 [ev1 [ev2 [H1 [H2 ->]]]]]].
    destruct (chain_nested_stderr _ _ _ _ _ _ _ H1) as [-> Hq].
    injection H2 as <- <-.
    rewrite forallb_app, (stderr_is_walk _ Hq). split; reflexivity.
  - apply bind_inv in H. destruct H as [[] [g1 [ev1 [ev2 [H1 [H2 ->]]]]]].
    injection H1 as <- <-.
    apply bind_inv in H2. destruct H2 as [[] [g2 [ev3 [ev4 [H3 [H4 ->]]]]]].
    injection H3 as <- <-.
    unfold forM_ in H4. cbn [app forallb walk_event andb].
    assert (Hloop : forall keys', Forall
              (fun o => forall sourceDir outputDir g g' ev,
                 merge_nested o sourceDir inputFiles outputDir g = Some (tt, g', ev) ->
                 at_output g = true ->
                 at_output g' = true /\ forallb walk_event ev = true) keys' ->
              forall sd od g1 g1' ev1,
                foldM (fun _ key => merge_nested key sd inputFiles od) keys' tt g1
                = Some (tt, g1', ev1) ->
                at_output g1 = true ->
                at_output g1' = true /\ forallb walk_event ev1 = true).
    { induction keys' as [|key rest IHrest]; intros Hall sd od g1 g1' ev1 Hrun Hg1.
      - injection Hrun as <- <-. split; [exact Hg1|reflexivity].
      - rewrite foldM_cons in Hrun. apply bind_inv in Hrun.
        destruct Hrun as [[] [ga [eva [evb [Ha [Hb ->]]]]]].
        inversion Hall as [|? ? Hkey Hrest]; subst.
        destruct (Hkey _ _ _ _ _ Ha Hg1) as [Hga Hwa].
        destruct (IHrest Hrest _ _ _ _ _ Hb Hga) as [Hgb Hwb].
        rewrite forallb_app, Hwa, Hwb. split; [exact Hgb|reflexivity]. }
    exact (Hloop keys IH _ _ _ _ _ H4 eq_refl).
  - cbv [bind cd TObject_Write] in H. injection H as <- <-. split; reflexivity.
Qed.

Lemma merge_top_level_walk (firstDir : TFile) (inputFiles : list TFile)
    (obj : TObject) (g g' : Cursor) (ev : list Event) :
  merge_top_level firstDir inputFiles obj g = Some (tt, g', ev) ->
  at_output g' = true /\ forallb walk_event ev = true.
Proof.
  intros H.
  destruct obj as [h|p|t|name keys|c n payload]; cbn [merge_top_level GetName] in H.
  - apply bind_inv in H. destruct H as [[] [g1 [ev1 [ev2 [H1 [H2 ->]]]]]].
    injection H1 as <- <-.
    apply bind_inv in H2. destruct H2 as [m [g2 [ev3 [ev4 [H3 [H4 ->]]]]]].
    destruct (merge_bins_stderr _ _ _ _ _ _
                (fun i j k g0 v g3 ev0 =>
                   collect_root_stderr inputFiles _ i j k g0 v g3 ev0) H3)
      as [-> Hq].
    injection H4 as <- <-.
    cbn [app]. rewrite forallb_app, (stderr_is_walk _ Hq). split; reflexivity.
  - apply bind_inv in H. destruct H as [v [g1 [ev1 [ev2 [H1 [H2 ->]]]]]].
    destruct (sum_root_stderr _ _ _ _ _ _ H1) as [-> Hq].
    injection H2 as <- <-.
    rewrite forallb_app, (stderr_is_walk _ Hq). split; reflexivity.
  - apply bind_inv in H. destruct H as [v [g1 [ev1 [ev2 [H1 [H2 ->]]]]]].
    destruct (chain_root_stderr _ _ _ _ _ _ H1) as [-> Hq].
    injection H2 as <- <-.
    rewrite forallb_app, (stderr_is_walk _ Hq). split; reflexivity.
  - apply bind_inv in H. destruct H as [[] [g1 [ev1 [ev2 [H1 [H2 ->]]]]]].
    injection H1 as <- <-.
    apply bind_inv in H2. destruct H2 as [[] [g2 [ev3 [ev4 [H3 [H4 ->]]]]]].
    injection H3 as <- <-.
    assert (Hnested : merge_nested (ObjTDirectory name keys) (top_of firstDir)
                        inputFiles [] (AtOutput []) = Some (tt, g', ev4)).
    { cbn [merge_nested top_of dFile dPath app]. exact H4. }
    destruct (merge_nested_walk inputFiles _ _ _ _ _ _ Hnested eq_refl) as [Hg Hw].
    cbn [app forallb walk_event andb]. split; assumption.
  - cbv [bind cd TObject_Write] in H. injection H as <- <-. split; reflexivity.
Qed.

Lemma walk_has_no_progress (ev : list Event) :
  forallb walk_event ev = true ->
  filter is_progress ev = [] /\ forallb (fun e => negb (is_elsewhere e)) ev = true.
Proof.
  induction ev as [|e ev IH]; [split; reflexivity|].
  cbn [forallb filter]. intros H. apply andb_prop in H. destruct H as [He Hev].
  destruct (IH Hev) as [Hp Hn]. rewrite Hp, Hn.
  destruct e; cbn in He; try discriminate; split; reflexivity.
Qed.

(** The top-level loop started at count [objCount]: it reports progress
    once per key, counting upwards, and nothing else touches the
    counter. *)
Lemma merge_loop_progress (firstDir : TFile) (inputFiles : list TFile)
    (totalObjs : nat) (keys : list TObject) :
  forall objCount g n g' ev,
    foldM (merge_loop_step firstDir inputFiles totalObjs) keys objCount g
    = Some (n, g', ev) ->
    n = objCount + List.length keys
    /\ filter is_progress ev
       = map (fun i => ProgressBar i totalObjs) (seq (objCount + 1) (List.length keys))
    /\ forallb (fun e => negb (is_elsewhere e)) ev = true.
Proof.
  induction keys as [|key rest IH]; intros objCount g n g' ev H.
  - injection H as <- <- <-. cbn. rewrite Nat.add_0_r. repeat split.
  - rewrite foldM_cons in H. apply bind_inv in H.
    destruct H as [n1 [g1 [ev1 [ev2 [H1 [H2 ->]]]]]].
    unfold merge_loop_step in H1. apply bind_inv in H1.
    destruct H1 as [[] [g2 [ev3 [ev4 [H3 [H4 ->]]]]]].
    cbv [bind PrintProgressBar emit ret] in H4. injection H4 as <- <- <-.
    destruct (merge_top_level_walk _ _ _ _ _ _ H3) as [_ Hw].
    destruct (walk_has_no_progress _ Hw) as [Hp Hn].
    destruct (IH _ _ _ _ _ H2) as [-> [Hprog Hrest]].
    cbn [List.length seq map]. rewrite !filter_app, !forallb_app, Hp, Hn, Hprog, Hrest.
    cbn [filter is_progress app forallb is_elsewhere negb andb].
    replace (objCount + 1 + 1) with (S (objCount + 1)) by lia.
    split; [lia|]. split; reflexivity.
Qed.

Lemma scan_log_lines (entries : list directory_entry) :
  filter is_progress (scan_log entries) = []
  /\ forallb (fun e => negb (is_elsewhere e)) (scan_log entries) = true.
Proof.
  unfold scan_log. induction entries as [|e entries [IHp IHn]]; [split; reflexivity|].
  cbn [flat_map]. rewrite filter_app, forallb_app, IHp, IHn.
  unfold scan_line. destruct (is_directory e); [destruct (pairGen e)|];
    split; reflexivity.
Qed.

Lemma closes_lines (inputFiles : list TFile) :
  filter is_progress (closes inputFiles) = []
  /\ forallb (fun e => negb (is_elsewhere e)) (closes inputFiles) = true.
Proof.
  unfold closes. induction inputFiles as [|f l [IHp IHn]]; [split; reflexivity|].
  cbn [map filter is_progress forallb is_elsewhere negb andb]. split; assumption.
Qed.

(** X6: every [Write()] of a run is issued with the cursor inside the
    output file: whatever the input files hold and wherever the records
    are nested, no object is written into an input file or into the
    session's memory. *)
Theorem writes_stay_in_output_file :
  forall (entries : list directory_entry) (creatable : bool) (trace : list Event),
    run entries creatable = Some trace ->
    forallb (fun e => negb (is_elsewhere e)) trace = true.
Proof.
  intros entries creatable trace Hrun. rewrite run_shape in Hrun.
  destruct (scan_log_lines entries) as [_ Hscan].
  destruct (closes_lines (opened entries)) as [_ Hclose].
  unfold completed_trace in Hrun.
  remember (opened entries) as files eqn:Hopened.
  destruct files as [|firstDir others].
  - injection Hrun as <-. rewrite forallb_app, Hscan. reflexivity.
  - destruct creatable.
    + unfold events_of in Hrun.
      destruct (merge_loop firstDir (firstDir :: others) (AtInput (fileName firstDir)))
        as [[[n g'] body]|] eqn:Hloop; [|discriminate].
      injection Hrun as <-.
      destruct (merge_loop_progress _ _ _ _ _ _ _ _ _ Hloop) as [_ [_ Hbody]].
      pose proof (proj2 (closes_lines others)) as Hothers.
      rewrite forallb_app, Hscan. cbn [forallb andb].
      rewrite forallb_app, Hbody. cbn [forallb andb].
      rewrite forallb_app, Hothers. reflexivity.
    + injection Hrun as <-.
      pose proof (proj2 (closes_lines others)) as Hothers.
      rewrite forallb_app, Hscan. cbn [forallb andb].
      rewrite Hothers. reflexivity.
Qed.

(** X7: a run that reaches the loop calls [PrintProgressBar] exactly once
    per key at the top of the first file, with the counts 1, 2, ..., n
    out of n, n being the number of those keys: records inside
    directories are not counted, the total is never 0 in a call, and the
    last call reports n out of n. *)
Theorem progress_counts_top_level_keys :
  forall (entries : list directory_entry) (trace : list Event)
         (firstDir : TFile) (others : list TFile),
    opened entries = firstDir :: others ->
    run entries true = Some trace ->
    filter is_progress trace
    = map (fun i => ProgressBar i (List.length (fileKeys firstDir)))
          (seq 1 (List.length (fileKeys firstDir))).
Proof.
  intros entries trace firstDir others Hopened Hrun.
  rewrite run_shape in Hrun. unfold completed_trace in Hrun.
  rewrite Hopened in Hrun. unfold events_of in Hrun.
  destruct (merge_loop firstDir (firstDir :: others) (AtInput (fileName firstDir)))
    as [[[n g'] body]|] eqn:Hloop; [|discriminate].
  injection Hrun as <-.
  destruct (scan_log_lines entries) as [Hscan _].
  destruct (closes_lines (firstDir :: others)) as [Hclose _].
  destruct (merge_loop_progress _ _ _ _ _ _ _ _ _ Hloop) as [_ [Hbody _]].
  pose proof (proj1 (closes_lines others)) as Hothers.
  rewrite filter_app, Hscan. cbn [app filter is_progress merging_line].
  rewrite filter_app, Hbody. cbn [filter is_progress].
  rewrite filter_app, Hothers. apply app_nil_r.
Qed.

(** ** [MergeDirectories] and the input files after the first *)

Lemma split_at_prefix (c : ascii) (s t : string) :
  split_at c s = None -> split_at c (s ++ String c t) = Some (s, t).
Proof.
  induction s as [|a s IH]; cbn [append split_at]; intros H.
  - rewrite Ascii.eqb_refl. reflexivity.
  - destruct (Ascii.eqb a c); [discriminate|].
    destruct (split_at c s) as [[l r]|] eqn:E; [discriminate|].
    rewrite IH by reflexivity. reflexivity.
Qed.

(** The path of a directory of the first input file is resolved in that
    file, whichever file receives the call and whatever the other open
    files hold. *)
Lemma GetDirectory_first (ref : TFile) (others : list TFile) (self : TFile)
    (sourceDir : TDirectory) :
  dFile sourceDir = fileName ref ->
  split_at ":"%char (fileName ref) = None ->
  GetDirectory (ref :: others) self (GetPath sourceDir)
  = GetDirectory [ref] ref (GetPath sourceDir).
Proof.
  intros Hfile Hcolon.
  assert (Hsplit : exists rest,
             split_at ":"%char (GetPath sourceDir) = Some (fileName ref, rest)).
  { unfold GetPath. rewrite Hfile.
    destruct (dPath sourceDir); eexists; apply split_at_prefix; exact Hcolon. }
  destruct Hsplit as [rest Hsplit]. unfold GetDirectory.
  destruct (String.eqb (GetPath sourceDir) "") eqn:E.
  - apply String.eqb_eq in E. rewrite E in Hsplit. discriminate.
  - rewrite Hsplit. unfold FindFile. cbn [find]. rewrite String.eqb_refl. reflexivity.
Qed.

Lemma foldM_ext {A S : Type} (body body' : S -> A -> M S) (l : list A) :
  Forall (fun a => forall s g, body s a g = body' s a g) l ->
  forall s g, foldM body l s g = foldM body' l s g.
Proof.
  induction 1 as [|a l Ha _ IH]; intros s g; [reflexivity|].
  rewrite !foldM_cons. unfold bind. rewrite Ha.
  destruct (body' s a g) as [[[s1 g1] ev1]|]; [rewrite IH|]; reflexivity.
Qed.

Lemma foldM_related {A S : Type} (R : A -> A -> Prop) (body body' : S -> A -> M S)
    (l l' : list A) :
  Forall2 R l l' ->
  (forall s a a' g, R a a' -> body s a g = body' s a' g) ->
  forall s g, foldM body l s g = foldM body' l' s g.
Proof.
  intros Hl Hbody. induction Hl as [|a a' l l' Ha _ IH]; intros s g; [reflexivity|].
  rewrite !foldM_cons. unfold bind. rewrite (Hbody s a a' g Ha).
  destruct (body' s a' g) as [[[s1 g1] ev1]|]; [rewrite IH|]; reflexivity.
Qed.

Lemma same_names (l : list TFile) :
  forall l', map fileName l = map fileName l' ->
             Forall2 (fun f f' => fileName f = fileName f') l l'.
Proof.
  induction l as [|f l IH]; intros [|f' l'] H; try discriminate; constructor.
  - injection H as H _. exact H.
  - apply IH. injection H as _ H. exact H.
Qed.

Lemma merge_bins_ext (collect collect' : nat -> nat -> nat -> M (list double))
    (histClone : TH1) (g : Cursor) :
  (forall i j k g0, collect i j k g0 = collect' i j k g0) ->
  merge_bins collect histClone g = merge_bins collect' histClone g.
Proof.
  intros Hc. unfold merge_bins.
  apply foldM_ext, Forall_forall. intros i _ hx gx.
  apply foldM_ext, Forall_forall. intros j _ hy gy.
  apply foldM_ext, Forall_forall. intros k _ hz gz.
  unfold merge_bin, bind. rewrite Hc. reflexivity.
Qed.

Section First_file_only.
Variable ref : TFile.
Variables others others' : list TFile.
Hypothesis no_colon : split_at ":"%char (fileName ref) = None.
Hypothesis names : map fileName others = map fileName others'.

Lemma same_names_all :
  Forall2 (fun f f' => fileName f = fileName f') (ref :: others) (ref :: others').
Proof. constructor; [reflexivity|apply same_names, names]. Qed.

Lemma collect_nested_first (sourceDir : TDirectory) (name : string) (i j k : nat)
    (g : Cursor) :
  dFile sourceDir = fileName ref ->
  collect_nested sourceDir (ref :: others) name i j k g
  = collect_nested sourceDir (ref :: others') name i j k g.
Proof.
  intros Hfile. unfold collect_nested.
  apply (foldM_related _ _ _ _ _ same_names_all).
  intros s f f' g0 _. unfold collect_nested_step.
  rewrite (GetDirectory_first ref others f sourceDir Hfile no_colon),
      (GetDirectory_first ref others' f' sourceDir Hfile no_colon). reflexivity.
Qed.

Lemma sum_nested_first (sourceDir : TDirectory) (objName : string) (g : Cursor) :
  dFile sourceDir = fileName ref ->
  sum_nested sourceDir (ref :: others) objName g
  = sum_nested sourceDir (ref :: others') objName g.
Proof.
  intros Hfile. unfold sum_nested.
  apply (foldM_related _ _ _ _ _ same_names_all).
  intros s f f' g0 Hname. unfold sum_nested_step.
  rewrite (GetDirectory_first ref others f sourceDir Hfile no_colon),
      (GetDirectory_first ref others' f' sourceDir Hfile no_colon), Hname. reflexivity.
Qed.

Lemma chain_nested_first (sourceDir : TDirectory) (objName : string) (g : Cursor) :
  dFile sourceDir = fileName ref ->
  chain_nested sourceDir (ref :: others) objName g
  = chain_nested sourceDir (ref :: others') objName g.
Proof.
  intros Hfile. unfold chain_nested.
  apply (foldM_related _ _ _ _ _ same_names_all).
  intros s f f' g0 Hname. unfold chain_nested_step.
  rewrite (GetDirectory_first ref others f sourceDir Hfile no_colon),
      (GetDirectory_first ref others' f' sourceDir Hfile no_colon), Hname. reflexivity.
Qed.

Lemma merge_nested_first (obj : TObject) :
  forall (sourceDir : TDirectory) (outputDir : list string) (g : Cursor),
    dFile sourceDir = fileName ref ->
    merge_nested obj sourceDir (ref :: others) outputDir g
    = merge_nested obj sourceDir (ref :: others') outputDir g.
Proof.
  induction obj as [h|p|t|name keys IH|c n payload] using TObject_forest_ind;
    intros sourceDir outputDir g Hfile; cbn [merge_nested].
  - unfold bind.
    rewrite (merge_bins_ext _ (collect_nested sourceDir (ref :: others') (hName (Reset h))));
      [reflexivity|].
    intros i j k g0. apply collect_nested_first, Hfile.
  - unfold bind at 1 3. rewrite (sum_nested_first _ _ _ Hfile). reflexivity.
  - unfold bind at 1 3. rewrite (chain_nested_first _ _ _ Hfile). reflexivity.
  - unfold bind at 1 3. cbn [emit]. unfold bind at 1 2. cbn [cd].
    unfold forM_.
    rewrite (foldM_ext _ (fun _ key =>
                            merge_nested key
                              {| dFile := dFile sourceDir;
                                 dPath := (dPath sourceDir ++ [name])%list;
                                 dKeys := keys |}
                              (ref :: others') (outputDir ++ [name])%list));
      [reflexivity|].
    apply Forall_forall. intros key Hkey [] g0.
    rewrite Forall_forall in IH. apply (IH key Hkey). exact Hfile.
  - reflexivity.
Qed.

End First_file_only.

(** X5: [MergeDirectories] called on a directory of the first input file
    reads that file only.  The other input files count through their
    number and their names: with other files of the same names in their
    place, whatever these hold, the call writes and prints the same. *)
Theorem MergeDirectories_reads_first_file_only :
  forall (ref : TFile) (others others' : list TFile) (sourceDir : TDirectory)
         (outputDir : list string) (g : Cursor),
    dFile sourceDir = fileName ref ->
    split_at ":"%char (fileName ref) = None ->
    map fileName others = map fileName others' ->
    MergeDirectories sourceDir (ref :: others) outputDir g
    = MergeDirectories sourceDir (ref :: others') outputDir g.
Proof.
  intros ref others others' sourceDir outputDir g Hfile Hcolon Hnames.
  unfold MergeDirectories, bind. cbn [cd]. unfold forM_.
  rewrite (foldM_ext _ (fun _ key =>
                          merge_nested key sourceDir (ref :: others') outputDir));
    [reflexivity|].
  apply Forall_forall. intros key _ [] g0.
  apply merge_nested_first; assumption.
Qed.

(** ** The messages of the top-level histogram branch *)

Lemma flat_map_nested {A B C : Type} (f : B -> list C) (g : A -> list B) (l : list A) :
  flat_map f (flat_map g l) = flat_map (fun a => flat_map f (g a)) l.
Proof.
  induction l as [|a l IH]; [reflexivity|].
  cbn [flat_map]. rewrite flat_map_app, IH. reflexivity.
Qed.

Lemma flat_map_of_map {A B C : Type} (f : B -> list C) (g : A -> B) (l : list A) :
  flat_map f (map g l) = flat_map (fun a => f (g a)) l.
Proof.
  induction l as [|a l IH]; [reflexivity|]. cbn [map flat_map]. rewrite IH. reflexivity.
Qed.

Lemma length_flat_map_const {A B : Type} (f : A -> list B) (n : nat) (l : list A) :
  (forall a, List.length (f a) = n) ->
  List.length (flat_map f l) = List.length l * n.
Proof.
  intros Hf. induction l as [|a l IH]; [reflexivity|].
  cbn [flat_map List.length]. rewrite length_app, Hf, IH. lia.
Qed.

Lemma length_coordinates (h : TH1) :
  List.length (coordinates h)
  = (GetNbinsX h + 2) * ((GetNbinsY h + 2) * (GetNbinsZ h + 2)).
Proof.
  unfold coordinates.
  rewrite (length_flat_map_const _ ((GetNbinsY h + 2) * (GetNbinsZ h + 2))), length_seq;
    [reflexivity|].
  intros i. rewrite (length_flat_map_const _ (GetNbinsZ h + 2)), length_seq;
    [reflexivity|].
  intros j. rewrite length_map, length_seq. reflexivity.
Qed.

(** The bin loops with their messages: one collection per bin. *)
Lemma merge_bins_log (collect : nat -> nat -> nat -> M (list double))
    (vals : nat -> nat -> nat -> list double) (line : nat -> nat -> nat -> list Event)
    (histClone : TH1) (g : Cursor) :
  (forall i j k, collect i j k g = Some (vals i j k, g, line i j k)) ->
  merge_bins collect histClone g
  = Some (fold_left (set_bin_at vals) (coordinates histClone) histClone, g,
          flat_map (fun c => line (fst (fst c)) (snd (fst c)) (snd c))
                   (coordinates histClone)).
Proof.
  intros Hc. unfold merge_bins.
  rewrite (foldM_pure _
             (fun hx i =>
                fold_left (fun hy j =>
                  fold_left (fun hz k => set_bin hz i j k (vals i j k))
                            (seq 0 (GetNbinsZ histClone + 2)) hy)
                  (seq 0 (GetNbinsY histClone + 2)) hx)
             (fun i => flat_map (fun j => flat_map (fun k => line i j k)
                                   (seq 0 (GetNbinsZ histClone + 2)))
                         (seq 0 (GetNbinsY histClone + 2)))).
  - rewrite fold_coordinates. apply f_equal. apply f_equal.
    unfold coordinates. rewrite flat_map_nested.
    apply flat_map_ext. intros i. rewrite flat_map_nested.
    apply flat_map_ext. intros j. rewrite flat_map_of_map. reflexivity.
  - intros hx i _.
    apply (foldM_pure _
             (fun hy j => fold_left (fun hz k => set_bin hz i j k (vals i j k))
                            (seq 0 (GetNbinsZ histClone + 2)) hy)
             (fun j => flat_map (fun k => line i j k)
                         (seq 0 (GetNbinsZ histClone + 2)))).
    intros hy j _.
    apply (foldM_pure _ (fun hz k => set_bin hz i j k (vals i j k))
             (fun k => line i j k)).
    intros hz k _. unfold merge_bin. rewrite (bind_run _ _ _ _ _ _ (Hc i j k)).
    cbn [ret]. rewrite app_nil_r. reflexivity.
Qed.

Lemma lines_of_lacking (name : string) (line : TFile -> Event) (inputFiles : list TFile) :
  flat_map (fun file => match Get (fileKeys file) name with
                        | Some _ => []
                        | None => [line file]
                        end) inputFiles
  = map line (filter (lacks name) inputFiles).
Proof.
  induction inputFiles as [|f l IH]; [reflexivity|].
  cbn [flat_map filter]. rewrite IH. unfold lacks.
  destruct (Get (fileKeys f) name); reflexivity.
Qed.

(** X9: the top-level histogram branch fetches the histogram from every
    input file once per bin, guard bins included, so an input file that
    lacks the histogram is reported once per bin: the branch prints
    (nx+2)(ny+2)(nz+2) rounds of not-found lines, each round naming the
    lacking files in input order, then writes the merged histogram at the
    top of the output file. *)
Theorem top_level_histogram_not_found_lines :
  forall (h : TH1) (firstDir : TFile) (inputFiles : list TFile) (g : Cursor),
    (forall file o, In file inputFiles -> Get (fileKeys file) (hName h) = Some o ->
       classify o = SampledDistribution) ->
    exists merged,
      merge_top_level firstDir inputFiles (ObjTH1 h) g
      = Some (tt, AtOutput [],
              (flat_map (fun _ =>
                           map (fun file => Cerr ("Histogram " ++ hName h
                                                    ++ " not found in file "
                                                    ++ fileName file))
                               (filter (lacks (hName h)) inputFiles))
                        (coordinates h)
                 ++ [WriteObj [] (WrTH1 merged)])%list)
      /\ List.length (coordinates h)
         = (GetNbinsX h + 2) * ((GetNbinsY h + 2) * (GetNbinsZ h + 2)).
Proof.
  intros h firstDir inputFiles g Htyped.
  set (vals := fun i j k => map (fun h' => GetBinContent h' i j k)
                                (histograms_named (hName h) inputFiles)).
  set (line := fun file => Cerr ("Histogram " ++ hName h ++ " not found in file "
                                   ++ fileName file)).
  assert (Hmerge := merge_bins_log (collect_root inputFiles (hName (Reset h))) vals
                      (fun _ _ _ => map line (filter (lacks (hName h)) inputFiles))
                      (Reset h) (AtOutput [])).
  assert (Hcollect : forall i j k,
             collect_root inputFiles (hName (Reset h)) i j k (AtOutput [])
             = Some (vals i j k, AtOutput [],
                     map line (filter (lacks (hName h)) inputFiles))).
  { intros i j k. cbn [Reset hName].
    rewrite (collect_root_values inputFiles (hName h) i j k (AtOutput []) Htyped).
    rewrite sample_of_histograms, (lines_of_lacking (hName h) line). reflexivity. }
  specialize (Hmerge Hcollect).
  exists (fold_left (set_bin_at vals) (coordinates (Reset h)) (Reset h)).
  split; [|apply length_coordinates].
  cbn [merge_top_level]. unfold bind at 1. cbn [cd].
  rewrite (bind_run _ _ _ _ _ _ Hmerge). reflexivity.
Qed.

(** ** The progress bar *)

Lemma progress_bar_ext (pos pos' : Z) :
  (forall i, (0 <= i < barWidth)%Z -> bar_char pos i = bar_char pos' i) ->
  progress_bar pos = progress_bar pos'.
Proof.
  intros H. unfold progress_bar. f_equal. apply map_ext_in. intros i Hi.
  apply in_seq in Hi. apply H. unfold barWidth in *. lia.
Qed.

(** X12: between the brackets the bar is always 70 characters wide: [=] up
    to the position, [>] at the position when it lies inside the bar,
    blanks after it.  A position at or past the width gives a bar of [=]
    without arrow, a negative one a bar of blanks. *)
Theorem progress_bar_shape :
  forall pos : Z,
    progress_bar pos
    = copies (Z.to_nat (Z.min pos barWidth)) "="
        ++ (if (0 <=? pos)%Z && (pos <? barWidth)%Z then ">" else "")
        ++ copies (Z.to_nat (barWidth - 1 - Z.max pos (-1))) " "
    /\ String.length (progress_bar pos) = Z.to_nat barWidth.
Proof.
  intros pos.
  destruct (Z_lt_le_dec pos 0) as [Hneg|Hpos]; [|destruct (Z_lt_le_dec pos barWidth) as [Hin|Hout]].
  - rewrite (progress_bar_ext pos (-1)).
    + rewrite Z.min_l by (unfold barWidth; lia). rewrite Z.max_r by lia.
      replace ((0 <=? pos)%Z) with false by (symmetry; apply Z.leb_gt; exact Hneg).
      replace (Z.to_nat pos) with 0 by lia. vm_compute. split; reflexivity.
    + intros i Hi. unfold bar_char.
      rewrite !(proj2 (Z.ltb_ge _ _)) by lia.
      replace ((i =? pos)%Z) with false by (symmetry; apply Z.eqb_neq; lia).
      replace ((i =? -1)%Z) with false by (symmetry; apply Z.eqb_neq; lia).
      reflexivity.
  - assert (Hn : exists n, pos = Z.of_nat n /\ n < 70).
    { exists (Z.to_nat pos). unfold barWidth in Hin. split; lia. }
    destruct Hn as [n [-> Hn]].
    do 70 (destruct n as [|n]; [vm_compute; split; reflexivity|]).
    lia.
  - rewrite (progress_bar_ext pos barWidth).
    + rewrite Z.min_r by lia. rewrite Z.max_l by lia.
      replace ((pos <? barWidth)%Z) with false by (symmetry; apply Z.ltb_ge; exact Hout).
      rewrite andb_false_r.
      replace (Z.to_nat (barWidth - 1 - pos)) with 0 by lia.
      vm_compute. split; reflexivity.
    + intros i Hi. unfold bar_char.
      rewrite !(proj2 (Z.ltb_lt _ _)) by lia. reflexivity.
Qed.

(** Conversion of a small positive [int] to [float] is exact. *)
Lemma digits2_pos_shift (p k : positive) :
  digits2_pos (Pos.iter xO p k) = (digits2_pos p + k)%positive.
Proof.
  induction k as [|k IH] using Pos.peano_ind.
  - cbn. rewrite Pos.add_1_r. reflexivity.
  - rewrite Pos.iter_succ. cbn [digits2_pos]. rewrite IH, Pos.add_succ_r. reflexivity.
Qed.

Lemma digits2_pos_size (p : positive) : digits2_pos p = Pos.size p.
Proof. induction p as [p IH|p IH|]; cbn; rewrite ?IH; reflexivity. Qed.

Lemma digits2_pos_bound (p : positive) :
  (Zpos p < 2 ^ 24)%Z -> (Zpos (digits2_pos p) <= 24)%Z.
Proof.
  intros H. rewrite digits2_pos_size.
  destruct (Z_le_gt_dec (Zpos (Pos.size p)) 24) as [Hle|Hgt]; [exact Hle|exfalso].
  pose proof (Pos.size_le p) as Hsize.
  assert (Hpow : (2 ^ 25 <= 2 ^ Zpos (Pos.size p))%Z)
    by (apply Z.pow_le_mono_r; lia).
  assert (Hz : (2 ^ Zpos (Pos.size p) <= 2 * Zpos p)%Z).
  { apply Pos2Z.pos_le_pos in Hsize. rewrite Pos2Z.inj_pow in Hsize.
    rewrite Pos2Z.inj_xO in Hsize. exact Hsize. }
  change (2 ^ 25)%Z with 33554432%Z in Hpow. change (2 ^ 24)%Z with 16777216%Z in H.
  lia.
Qed.

Lemma binary_round_aux_exact (m : positive) (e : Z) :
  digits2_pos m = 24%positive -> (-149 <= e <= 104)%Z ->
  binary_round_aux 24 128 false (Zpos m) e loc_Exact = S754_finite false m e.
Proof.
  intros Hd He.
  assert (Hshift : (fexp 24 128 (Zdigits2 (Zpos m) + e) - e = 0)%Z).
  { unfold fexp, emin, Zdigits2. rewrite Hd. lia. }
  unfold binary_round_aux, shr_fexp. rewrite Hshift.
  cbn [shr shr_record_of_loc shr_m loc_of_shr_record round_nearest_even].
  rewrite Hshift. cbn [shr shr_record_of_loc shr_m].
  replace ((e <=? 128 - 24)%Z) with true by (symmetry; apply Z.leb_le; lia).
  reflexivity.
Qed.

Lemma float_of_int_finite (n : Z) :
  (0 < n < 2 ^ 24)%Z -> exists m e, float_of_int n = S754_finite false m e.
Proof.
  intros [Hpos Hlt]. destruct n as [|p|p]; try lia.
  pose proof (digits2_pos_bound p Hlt) as Hd.
  unfold float_of_int, binary_normalize, binary_round, shl_align.
  assert (Hfexp : (fexp 24 128 (Zpos (digits2_pos p) + 0) = Zpos (digits2_pos p) - 24)%Z).
  { unfold fexp, emin. lia. }
  rewrite Hfexp.
  destruct (Zpos (digits2_pos p) - 24 - 0)%Z as [|q|q] eqn:Hq.
  - eexists. eexists. apply binary_round_aux_exact; [|lia].
    apply Pos2Z.inj. lia.
  - lia.
  - eexists. eexists. apply binary_round_aux_exact; [|lia].
    rewrite digits2_pos_shift. apply Pos2Z.inj. rewrite Pos2Z.inj_add. lia.
Qed.

(** A finite number divided by itself is 1. *)
Lemma float_div_same (s : bool) (m : positive) (e : Z) :
  float_div (S754_finite s m e) (S754_finite s m e) = S754_finite false 8388608 (-23).
Proof.
  unfold float_div, SFdiv, SFdiv_core_binary.
  rewrite !Z.sub_diag.
  change (Z.min (fexp 24 128 0) 0) with (-24)%Z.
  change (0 - -24)%Z with 24%Z. cbv iota.
  rewrite Z.shiftl_mul_pow2 by lia.
  assert (Hdiv : Z.div_eucl (Zpos m * 2 ^ 24) (Zpos m) = ((2 ^ 24)%Z, 0%Z)).
  { pose proof (Z_div_mult (2 ^ 24) (Zpos m) ltac:(lia)) as Hq.
    pose proof (Z_mod_mult (2 ^ 24) (Zpos m)) as Hr.
    rewrite (Z.mul_comm (Zpos m)).
    unfold Z.div, Z.modulo in Hq, Hr.
    destruct (Z.div_eucl (2 ^ 24 * Zpos m) (Zpos m)) as [q r].
    rewrite Hq, Hr. reflexivity. }
  rewrite Hdiv.
  assert (Hloc : new_location (Zpos m) 0 = loc_Exact).
  { unfold new_location. destruct (Z.even (Zpos m)); reflexivity. }
  rewrite Hloc, xorb_nilpotent. vm_compute. reflexivity.
Qed.

(** X13: the last call of a run, [PrintProgressBar(total, total)], draws a
    bar of 70 [=] without arrow and prints 100 %, for every total from 1
    to 16777215, the range in which the conversion of the counters to
    [float] is exact. *)
Theorem progress_bar_completes :
  forall total : Z,
    (0 < total < 2 ^ 24)%Z ->
    PrintProgressBar_text total total
    = Some ("[" ++ copies 70 "=" ++ "] 100 %" ++ carriage_return).
Proof.
  intros total Htotal.
  destruct (float_of_int_finite total Htotal) as [m [e Hfloat]].
  assert (Hprogress : progress_of total total = S754_finite false 8388608 (-23)).
  { unfold progress_of. rewrite Hfloat. apply float_div_same. }
  unfold PrintProgressBar_text, progress_position, progress_percent.
  rewrite Hprogress. vm_compute. reflexivity.
Qed.

Lemma bar_agrees_up_to_sound (n : nat) :
  bar_agrees_up_to n = true ->
  forall current total : Z,
    (1 <= current <= total)%Z -> (total <= Z.of_nat n)%Z ->
    bar_agrees current total = true.
Proof.
  intros Hall current total Hc Ht.
  unfold bar_agrees_up_to in Hall. rewrite forallb_forall in Hall.
  assert (Hin : In (Z.to_nat total) (seq 1 n)) by (apply in_seq; lia).
  specialize (Hall (Z.to_nat total) Hin). rewrite forallb_forall in Hall.
  assert (Hin' : In (Z.to_nat current) (seq 1 (Z.to_nat total))) by (apply in_seq; lia).
  specialize (Hall (Z.to_nat current) Hin'). rewrite !Z2Nat.id in Hall by lia.
  exact Hall.
Qed.

Lemma bar_agrees_up_to_200 : bar_agrees_up_to 200 = true.
Proof. vm_compute. reflexivity. Qed.

(** X14: for every call [PrintProgressBar(current, total)] with
    1 <= current <= total <= 200 the arrow is drawn at the exact position
    floor(70 current / total), and the percentage printed is the exact
    floor(100 current / total) or one less: the quotient is rounded to
    [float] before it is multiplied by 100.  Seven of ten prints 69 %. *)
Theorem progress_bar_accuracy :
  (forall current total : Z,
     (1 <= current <= total)%Z -> (total <= 200)%Z ->
     exists pos percent,
       progress_position current total = Some pos
       /\ progress_percent current total = Some percent
       /\ pos = exact_position current total
       /\ (percent = exact_percent current total
           \/ percent = (exact_percent current total - 1)%Z))
  /\ progress_percent 7 10 = Some 69%Z
  /\ exact_percent 7 10 = 70%Z.
Proof.
  split; [|split; vm_compute; reflexivity].
  intros current total Hc Ht.
  assert (Hall : bar_agrees current total = true)
    by (apply (bar_agrees_up_to_sound 200 bar_agrees_up_to_200); lia).
  unfold bar_agrees in Hall.
  destruct (progress_position current total) as [pos|]; [|discriminate].
  destruct (progress_percent current total) as [percent|]; [|discriminate].
  apply andb_prop in Hall. destruct Hall as [Hpos Hpct].
  apply Z.eqb_eq in Hpos. apply orb_prop in Hpct.
  exists pos, percent. repeat split; [exact Hpos|].
  destruct Hpct as [H|H]; apply Z.eqb_eq in H; [left|right]; exact H.
Qed.

(** ** What the histogram branches keep of the reference *)

Lemma foldM_invariant {A S : Type} (P : S -> Prop) (body : S -> A -> M S) (l : list A) :
  (forall s a g s' g' ev, body s a g = Some (s', g', ev) -> P s -> P s') ->
  forall s g s' g' ev, foldM body l s g = Some (s', g', ev) -> P s -> P s'.
Proof.
  intros Hbody. induction l as [|a l IH]; intros s g s' g' ev H Hs.
  - injection H as <- <- <-. exact Hs.
  - rewrite foldM_cons in H. apply bind_inv in H.
    destruct H as [s1 [g1 [ev1 [ev2 [H1 [H2 _]]]]]].
    exact (IH _ _ _ _ _ H2 (Hbody _ _ _ _ _ _ H1 Hs)).
Qed.

Lemma set_bin_same_shape (h ref : TH1) (i j k : nat) (sample : list double) :
  same_shape h ref -> same_shape (set_bin h i j k sample) ref.
Proof.
  intros [Hname [[Hd [Hx [Hy Hz]]] [La Le]]].
  destruct (set_bin_shape h i j k sample) as [[Hd' [Hx' [Hy' Hz']]] [La' Le']].
  pose proof (set_bin_name h i j k sample) as Hname'.
  unfold same_shape, same_binning. repeat split; congruence.
Qed.

Lemma merge_bins_shape (collect : nat -> nat -> nat -> M (list double))
    (histClone ref : TH1) (g : Cursor) (merged : TH1) (g' : Cursor) (ev : list Event) :
  merge_bins collect histClone g = Some (merged, g', ev) ->
  same_shape histClone ref -> same_shape merged ref.
Proof.
  unfold merge_bins.
  apply (foldM_invariant (fun m => same_shape m ref)). intros hx i gx hx' gx' evx.
  apply (foldM_invariant (fun m => same_shape m ref)). intros hy j gy hy' gy' evy.
  apply (foldM_invariant (fun m => same_shape m ref)). intros hz k gz hz' gz' evz Hz Pz.
  unfold merge_bin in Hz. apply bind_inv in Hz.
  destruct Hz as [v [g1 [ev1 [ev2 [_ [H2 _]]]]]].
  injection H2 as <- _ _. apply set_bin_same_shape, Pz.
Qed.

Lemma Reset_shape (h : TH1) : same_shape (Reset h) h.
Proof.
  unfold same_shape, same_binning. cbn [Reset hName fDimension fXaxis fYaxis fZaxis
                                         fArray fErrors].
  rewrite !length_map. repeat split.
Qed.

(** X10: whatever the input files hold, the histogram that either branch
    writes has the name, the dimension, the three axes and the array
    sizes of the histogram of the first file: the other files only
    contribute bin contents, and their binning changes nothing of the
    result's. *)
Theorem merged_histogram_keeps_reference_shape :
  forall (h : TH1) (firstDir : TFile) (sourceDir : TDirectory)
         (inputFiles : list TFile) (outputDir : list string),
    (forall g g' ev,
       merge_top_level firstDir inputFiles (ObjTH1 h) g = Some (tt, g', ev) ->
       exists merged log,
         ev = (log ++ [WriteObj [] (WrTH1 merged)])%list /\ same_shape merged h)
    /\ (forall path g' ev,
          merge_nested (ObjTH1 h) sourceDir inputFiles outputDir (AtOutput path)
          = Some (tt, g', ev) ->
          exists merged log,
            ev = (log ++ [WriteObj path (WrTH1 merged)])%list /\ same_shape merged h).
Proof.
  intros h firstDir sourceDir inputFiles outputDir. split.
  - intros g g' ev H. cbn [merge_top_level] in H.
    apply bind_inv in H. destruct H as [[] [g1 [ev1 [ev2 [H1 [H2 ->]]]]]].
    injection H1 as <- <-.
    apply bind_inv in H2. destruct H2 as [m [g2 [ev3 [ev4 [H3 [H4 ->]]]]]].
    destruct (merge_bins_stderr _ _ _ _ _ _
                (fun i j k g0 v g3 ev0 =>
                   collect_root_stderr inputFiles _ i j k g0 v g3 ev0) H3)
      as [-> _].
    injection H4 as _ <-. exists m, ev3. split; [reflexivity|].
    exact (merge_bins_shape _ _ _ _ _ _ _ H3 (Reset_shape h)).
  - intros path g' ev H. cbn [merge_nested] in H.
    apply bind_inv in H. destruct H as [m [g2 [ev3 [ev4 [H3 [H4 ->]]]]]].
    destruct (merge_bins_stderr _ _ _ _ _ _
                (fun i j k g0 v g3 ev0 =>
                   collect_nested_stderr sourceDir inputFiles _ i j k g0 v g3 ev0) H3)
      as [-> _].
    injection H4 as _ <-. exists m, ev3. split; [reflexivity|].
    exact (merge_bins_shape _ _ _ _ _ _ _ H3 (Reset_shape h)).
Qed.

(** ** Records of different classes under one name *)

Lemma foldM_fails {A S : Type} (body : S -> A -> M S) (l : list A) (a : A) :
  In a l -> (forall s g, body s a g = None) ->
  forall s g, foldM body l s g = None.
Proof.
  intros Hin Hfail. induction l as [|b l IH]; [destruct Hin|]. intros s g.
  rewrite foldM_cons. unfold bind.
  destruct Hin as [->|Hin].
  - rewrite Hfail. reflexivity.
  - destruct (body s b g) as [[[s1 g1] ev1]|]; [|reflexivity].
    rewrite (IH Hin). reflexivity.
Qed.

(** X11: the class of a record is tested in the first file only.  When
    the key of the first file is a histogram or a parameter and some
    input file stores a record of another class under the same name, the
    top-level branch calls a member function through a pointer cast to a
    class the record does not have: the merge of that key has no defined
    behaviour. *)
Theorem mismatched_class_is_undefined :
  forall (firstDir : TFile) (inputFiles : list TFile) (obj : TObject)
         (file : TFile) (o : TObject) (g : Cursor),
    In file inputFiles ->
    Get (fileKeys file) (GetName obj) = Some o ->
    classify obj = SampledDistribution \/ classify obj = ScalarAggregate ->
    classify o <> classify obj ->
    merge_top_level firstDir inputFiles obj g = None.
Proof.
  intros firstDir inputFiles obj file o g Hin Hget Hkind Hdiff.
  destruct obj as [h|p|t|name keys|c n payload];
    cbn [classify] in Hkind, Hdiff; cbn [GetName] in Hget;
    try (destruct Hkind; discriminate).
  - assert (Hcollect : forall i j k g0,
               collect_root inputFiles (hName (Reset h)) i j k g0 = None).
    { intros i j k g0. unfold collect_root.
      apply (foldM_fails _ _ file Hin). intros s g1.
      unfold collect_root_step, bind. cbn [Reset hName]. rewrite Hget.
      destruct o; cbn [classify] in Hdiff; try congruence; reflexivity. }
    cbn [merge_top_level]. unfold bind at 1. cbn [cd]. unfold bind at 1.
    unfold merge_bins. rewrite !Nat.add_succ_r. cbn [seq].
    rewrite !foldM_cons. unfold bind at 1. unfold bind at 1. unfold bind at 1.
    unfold merge_bin at 1. unfold bind at 1. rewrite Hcollect. reflexivity.
  - cbn [merge_top_level GetName]. unfold bind at 1. unfold sum_root.
    rewrite (foldM_fails _ _ file Hin); [reflexivity|].
    intros s g1. unfold sum_root_step, bind. rewrite Hget.
    destruct o; cbn [classify] in Hdiff; try congruence; reflexivity.
Qed.

(** ** Instances of the further properties *)

Lemma top_level_parameter_sum_instance :
  exists log,
    merge_top_level (file_a (level_keys 1 2)%float) (opened level_inputs)
                    (ObjTParameter {| pName := "n"; fVal := ValDouble 1%float |}) AtROOT
    = Some (tt, AtOutput [],
            (log ++ [WriteObj [] (WrTParameterDouble "n" 3%float)])%list).
Proof.
  destruct (top_level_parameter_sum {| pName := "n"; fVal := ValDouble 1%float |}
              (file_a (level_keys 1 2)%float) (opened level_inputs) AtROOT)
    as [log [Hrun _]].
  - intros file o [<-|[<-|[]]] H; vm_compute in H; injection H as <-; reflexivity.
  - exists log. etransitivity; [exact Hrun|]. vm_compute. reflexivity.
Defined.

Lemma MergeDirectories_reads_first_file_only_instance :
  MergeDirectories {| dFile := "./a/PairGen.root"; dPath := ["sub"];
                      dKeys := [ObjTH1 (one_bin "h" 1 2 0)%float] |}
                   [file_a (histogram_keys 1 2)%float; file_b (histogram_keys 3 4)%float]
                   ["sub"] (AtOutput [])
  = MergeDirectories {| dFile := "./a/PairGen.root"; dPath := ["sub"];
                        dKeys := [ObjTH1 (one_bin "h" 1 2 0)%float] |}
                     [file_a (histogram_keys 1 2)%float; file_b []]
                     ["sub"] (AtOutput []).
Proof.
  apply MergeDirectories_reads_first_file_only; reflexivity.
Defined.

Lemma writes_stay_in_output_file_instance :
  exists trace,
    run cursor_inputs true = Some trace
    /\ forallb (fun e => negb (is_elsewhere e)) trace = true.
Proof.
  destruct (run cursor_inputs true) as [trace|] eqn:Hrun;
    [|vm_compute in Hrun; discriminate].
  exists trace. split; [reflexivity|].
  exact (writes_stay_in_output_file cursor_inputs true trace Hrun).
Defined.

Lemma progress_counts_top_level_keys_instance :
  filter is_progress mixed_trace
  = [ProgressBar 1 5; ProgressBar 2 5; ProgressBar 3 5; ProgressBar 4 5;
     ProgressBar 5 5].
Proof.
  apply (progress_counts_top_level_keys mixed_inputs mixed_trace
           (file_a (mixed_keys 1%float 2%float rows_a))
           [file_b (mixed_keys 2%float 4%float rows_b)]).
  - reflexivity.
  - vm_compute. reflexivity.
Defined.

Lemma top_level_histogram_not_found_lines_instance :
  exists merged,
    merge_top_level (file_a [ObjTH1 (one_bin "g" 0 2 0)%float])
                    (opened top_missing_inputs)
                    (ObjTH1 (one_bin "g" 0 2 0)%float) AtROOT
    = Some (tt, AtOutput [],
            (flat_map (fun _ => [Cerr "Histogram g not found in file ./b/PairGen.root"])
                      (seq 0 27)
               ++ [WriteObj [] (WrTH1 merged)])%list).
Proof.
  destruct (top_level_histogram_not_found_lines (one_bin "g" 0 2 0)%float
              (file_a [ObjTH1 (one_bin "g" 0 2 0)%float])
              (opened top_missing_inputs) AtROOT) as [merged [Hrun _]].
  - intros file o [<-|[<-|[]]] H; vm_compute in H; [|discriminate].
    injection H as <-. reflexivity.
  - exists merged. etransitivity; [exact Hrun|]. vm_compute. reflexivity.
Defined.

Lemma merged_histogram_keeps_reference_shape_instance :
  match merge_top_level (file_a (histogram_keys 1 2)%float) (opened histogram_inputs)
                        (ObjTH1 (one_bin "h" 1 2 0)%float) AtROOT with
  | Some (_, _, ev) =>
      exists merged log,
        ev = (log ++ [WriteObj [] (WrTH1 merged)])%list
        /\ same_shape merged (one_bin "h" 1 2 0)%float
  | None => False
  end.
Proof.
  destruct (merge_top_level (file_a (histogram_keys 1 2)%float) (opened histogram_inputs)
                            (ObjTH1 (one_bin "h" 1 2 0)%float) AtROOT)
    as [[[[] g'] ev]|] eqn:Hrun.
  - exact (proj1 (merged_histogram_keeps_reference_shape
                    (one_bin "h" 1 2 0)%float (file_a (histogram_keys 1 2)%float)
                    (top_of (file_a [])) (opened histogram_inputs) [])
                 AtROOT g' ev Hrun).
  - vm_compute in Hrun. discriminate.
Defined.

Lemma mismatched_class_is_undefined_instance :
  merge_top_level (file_a [ObjTH1 (one_bin "x" 0 2 0)%float])
                  [file_a [ObjTH1 (one_bin "x" 0 2 0)%float];
                   file_b [ObjTParameter {| pName := "x"; fVal := ValDouble 1%float |}]]
                  (ObjTH1 (one_bin "x" 0 2 0)%float) AtROOT
  = None.
Proof.
  apply (mismatched_class_is_undefined _ _ _
           (file_b [ObjTParameter {| pName := "x"; fVal := ValDouble 1%float |}])
           (ObjTParameter {| pName := "x"; fVal := ValDouble 1%float |})).
  - right. left. reflexivity.
  - reflexivity.
  - left. reflexivity.
  - discriminate.
Defined.

Lemma progress_bar_completes_instance :
  PrintProgressBar_text 5 5
  = Some ("[" ++ copies 70 "=" ++ "] 100 %" ++ carriage_return).
Proof.
  apply progress_bar_completes. split; reflexivity.
Defined.

Lemma progress_bar_accuracy_instance :
  exists pos percent,
    progress_position 29 100 = Some pos
    /\ progress_percent 29 100 = Some percent
    /\ pos = exact_position 29 100
    /\ (percent = exact_percent 29 100
        \/ percent = (exact_percent 29 100 - 1)%Z).
Proof.
  apply (proj1 progress_bar_accuracy 29%Z 100%Z); lia.
Defined.
